(** * cryptoquantengine: the plotting scripts

    A shallow embedding of the two visualisation scripts of the engine,

      - [hftengine/py/util.py]: [plot_equity_dd] and [plot_equity];
      - [hftengine/core/recorder/plot_recorder.py]: the module-level script
        that charts a recorder CSV,

    and the properties of the drawdown computation and of the order in which
    the scripts reach the tabular-data and charting libraries.

    Numbers.  numpy computes on binary64 arrays.  Two element types are
    given for the same, dtype-generic, code.  The first is [num]: a finite
    value is a rational, the IEEE 754 special values and their rules are
    kept, a result whose magnitude binary64 cannot hold overflows to the
    infinity of its sign, and a division by zero yields an infinity or a
    NaN, all as in numpy; what [num] leaves out is the rounding of a result
    that is in range, and the sign of zero.  The second is the kernel's
    binary64 [float], bit-exact, on which the concrete inputs are evaluated
    a second time.  The general statements are proved on [num], for every
    array of it, NaN and infinities included; they are statements about
    signs, comparisons and special values, which rounding to nearest keeps.
    An array of integer dtype is outside [num]: there [equity - peak] wraps
    around (see [Int64Array]).

    Libraries.  pandas and matplotlib are modelled as far as the scripts
    depend on them.  Where a library call can raise for reasons that lie in
    the library, the outcome is a parameter: the conversion of a timestamp
    ([to_datetime_us]), the text of the error when it fails
    ([DatetimeErrors]) and the layout of a figure ([Layout]). *)

From Stdlib Require Import ZArith QArith Qround Qabs Lqa Lia Bool Floats.
From stdpp Require Import base option list strings gmap.

Local Open Scope Q_scope.

(** ** numpy: element types and universal functions *)

Module Numpy.

(** The operations of a floating dtype that the scripts use, under numpy's
    names. [of_int] is the conversion numpy applies to a Python integer
    operand such as the literal [100]; [truth] is the truth value Python
    gives a float in a condition. *)
Class Dtype (A : Type) := {
  of_int : Z -> A;
  subtract : A -> A -> A;
  true_divide : A -> A -> A;
  multiply : A -> A -> A;
  greater_equal : A -> A -> bool;
  less_equal : A -> A -> bool;
  less : A -> A -> bool;
  equal : A -> A -> bool;
  isnan : A -> bool;
  isfinite : A -> bool;
  truth : A -> bool
}.

(** Values with the IEEE special values. *)
Inductive num : Type :=
  | Fin (q : Q)
  | PInf
  | NInf
  | NaN.

(** Sign of a finite value as the sign of the infinity it produces. *)
Definition signed_inf (negative : bool) : num :=
  if negative then NInf else PInf.

Definition Qneg (x : Q) : bool := negb (Qle_bool 0 x).
Definition Qzero (x : Q) : bool := Qeq_bool x 0.

(** The magnitude from which rounding to nearest yields an infinity:
    [2^1024 - 2^970], half a unit in the last place above the largest
    finite binary64 value. *)
Definition overflow_threshold : Q := inject_Z ((2 ^ 54 - 1) * 2 ^ 970).

(** The result of an operation on finite values: the infinity of its sign
    when binary64 rounds it to one, the value otherwise. *)
Definition finite_or_inf (q : Q) : num :=
  if Qle_bool overflow_threshold (Qabs q) then signed_inf (Qneg q) else Fin q.

Definition num_subtract (a b : num) : num :=
  match a, b with
  | NaN, _ | _, NaN => NaN
  | Fin x, Fin y => finite_or_inf (Qred (x - y))
  | PInf, PInf | NInf, NInf => NaN
  | PInf, _ | _, NInf => PInf
  | NInf, _ | _, PInf => NInf
  end.

Definition num_true_divide (a b : num) : num :=
  match a, b with
  | NaN, _ | _, NaN => NaN
  | Fin x, Fin y =>
      if Qzero y
      then (if Qzero x then NaN else signed_inf (Qneg x))
      else finite_or_inf (Qred (x / y))
  | Fin _, (PInf | NInf) => Fin 0
  | (PInf | NInf), (PInf | NInf) => NaN
  | PInf, Fin y => signed_inf (Qneg y)
  | NInf, Fin y => signed_inf (negb (Qneg y))
  end.

Definition num_multiply (a b : num) : num :=
  match a, b with
  | NaN, _ | _, NaN => NaN
  | Fin x, Fin y => finite_or_inf (Qred (x * y))
  | PInf, PInf | NInf, NInf => PInf
  | PInf, NInf | NInf, PInf => NInf
  | PInf, Fin y | Fin y, PInf =>
      if Qzero y then NaN else signed_inf (Qneg y)
  | NInf, Fin y | Fin y, NInf =>
      if Qzero y then NaN else signed_inf (negb (Qneg y))
  end.

(** [a <= b]; every comparison with a NaN is false. *)
Definition num_less_equal (a b : num) : bool :=
  match a, b with
  | NaN, _ | _, NaN => false
  | Fin x, Fin y => Qle_bool x y
  | NInf, _ | _, PInf => true
  | PInf, _ | _, NInf => false
  end.

(** [a < b]. *)
Definition num_less (a b : num) : bool :=
  match a, b with
  | NaN, _ | _, NaN => false
  | Fin x, Fin y => negb (Qle_bool y x)
  | PInf, _ | _, NInf => false
  | NInf, _ | _, PInf => true
  end.

(** [a == b]. *)
Definition num_equal (a b : num) : bool :=
  match a, b with
  | Fin x, Fin y => Qeq_bool x y
  | PInf, PInf | NInf, NInf => true
  | _, _ => false
  end.

Definition num_isnan (a : num) : bool :=
  match a with NaN => true | _ => false end.

Definition num_isfinite (a : num) : bool :=
  match a with Fin _ => true | _ => false end.

(** Python's truth value of a float: everything but zero. *)
Definition num_truth (a : num) : bool :=
  match a with Fin x => negb (Qzero x) | _ => true end.

#[export] Instance num_dtype : Dtype num := {
  of_int z := Fin (inject_Z z);
  subtract := num_subtract;
  true_divide := num_true_divide;
  multiply := num_multiply;
  greater_equal a b := num_less_equal b a;
  less_equal := num_less_equal;
  less := num_less;
  equal := num_equal;
  isnan := num_isnan;
  isfinite := num_isfinite;
  truth := num_truth
}.

(** binary64, on the kernel's primitive floats.  An integer is converted
    to the nearest binary64 value. *)
Definition float_of_int (z : Z) : float :=
  SF2Prim (SpecFloat.binary_normalize FloatOps.prec FloatOps.emax z 0 false).

#[export] Instance float_dtype : Dtype float := {
  of_int := float_of_int;
  subtract := PrimFloat.sub;
  true_divide := PrimFloat.div;
  multiply := PrimFloat.mul;
  greater_equal a b := PrimFloat.leb b a;
  less_equal := PrimFloat.leb;
  less := PrimFloat.ltb;
  equal := PrimFloat.eqb;
  isnan := PrimFloat.is_nan;
  isfinite := PrimFloat.is_finite;
  truth x := negb (PrimFloat.eqb x PrimFloat.zero)
}.

Section Ufuncs.
Context {A : Type} `{Dtype A}.

  (** [np.maximum]: the first operand on a tie, and a NaN in either operand
      propagates. *)
Definition maximum (a b : A) : A :=
    if greater_equal a b || isnan a then a else b.

  (** [ufunc.accumulate] along a one-dimensional array: [r[0] = a[0]],
      [r[i] = f r[i-1] a[i]]; the empty array gives the empty array. *)
Fixpoint accumulate_from (f : A -> A -> A) (acc : A) (a : list A) : list A :=
    match a with
    | [] => []
    | x :: rest => let r := f acc x in r :: accumulate_from f r rest
    end.

Definition accumulate (f : A -> A -> A) (a : list A) : list A :=
    match a with
    | [] => []
    | x :: rest => x :: accumulate_from f x rest
    end.

  (** An elementwise binary operation on two arrays.  In the scripts both
      operands always have the shape of [equity] (see [peak_length]), so no
      broadcasting takes place. *)
Definition elementwise (f : A -> A -> A) (a b : list A) : list A :=
    zip_with f a b.

  (** An array against a Python scalar on the right. *)
Definition elementwise_scalar {B : Type} (f : A -> A -> B) (a : list A) (c : A)
    : list B :=
    (fun x => f x c) <$> a.
End Ufuncs.

End Numpy.

(** ** util.py: the drawdown computation of [plot_equity_dd] *)

Module Drawdown.
Import Numpy.

Section Computation.
Context {A : Type} `{Dtype A}.

  (** [peak = np.maximum.accumulate(equity)] *)
Definition peak (equity : list A) : list A :=
    accumulate maximum equity.

  (** [drawdown = (equity - peak)] *)
Definition drawdown (equity : list A) : list A :=
    elementwise subtract equity (peak equity).

  (** [drawdown_pct = drawdown / peak * 100] *)
Definition drawdown_pct (equity : list A) : list A :=
    elementwise_scalar multiply
      (elementwise true_divide (drawdown equity) (peak equity))
      (of_int 100).

  (** A value agrees with [cents / 100] to two decimal places: it lies within
      half a hundredth of it. *)
Definition agrees_2dp (x : A) (cents : Z) : bool :=
    let half := true_divide (of_int 1) (of_int 2) in
    let scaled := multiply x (of_int 100) in
    less (subtract (of_int cents) half) scaled
    && less (subtract scaled half) (of_int cents).
End Computation.

End Drawdown.

(** ** The same lines on an array of dtype int64

    [np.maximum.accumulate] and [equity - peak] stay in int64, where the
    subtraction wraps around; [drawdown / peak] is a true division and
    yields floats. *)

Module Int64Array.
Import Numpy.

(** The int64 a result [z] wraps to: the value of [z] modulo [2^64] in
    [[-2^63, 2^63)]. *)
Definition wrap (z : Z) : Z := ((z + 2 ^ 63) mod 2 ^ 64 - 2 ^ 63)%Z.

Fixpoint accumulate_max (acc : Z) (a : list Z) : list Z :=
  match a with
  | [] => []
  | x :: rest =>
      let r := if (x <=? acc)%Z then acc else x in r :: accumulate_max r rest
  end.

(** [peak = np.maximum.accumulate(equity)] *)
Definition peak (equity : list Z) : list Z :=
  match equity with
  | [] => []
  | x :: rest => x :: accumulate_max x rest
  end.

(** [drawdown = (equity - peak)] *)
Definition drawdown (equity : list Z) : list Z :=
  zip_with (fun e p => wrap (e - p)) equity (peak equity).

(** [drawdown_pct = drawdown / peak * 100], in the floating dtype [A]. *)
Definition drawdown_pct {A : Type} `{Dtype A} (equity : list Z) : list A :=
  (fun q => multiply q (of_int 100))
    <$> zip_with (fun d p => true_divide (of_int d) (of_int p))
          (drawdown equity) (peak equity).

End Int64Array.

(** ** pandas: the values of a frame *)

Module Pandas.

(** One value of a column. *)
Inductive cell : Type :=
  | Int64 (z : Z)
  | Float64 (x : Numpy.num)
  | Object (s : string)
  | Datetime64 (t : Z).

(** A [DataFrame] as the scripts use it: columns looked up by name. *)
Abbreviation DataFrame := (gmap string (list cell)).

(** Every column of a frame has the same number of rows. *)
Definition rectangular (df : DataFrame) : Prop :=
  forall (c1 c2 : string) (s1 s2 : list cell),
    df !! c1 = Some s1 -> df !! c2 = Some s2 -> length s1 = length s2.

(** The text of the [ValueError] that [pd.to_datetime] raises on a column
    it cannot convert.  It names the offending value and differs from one
    release of pandas to the next, so it is left to the installed pandas. *)
Class DatetimeErrors := datetime_error : list cell -> string.

(** A pandas that gives the same text for every column. *)
Definition terse : DatetimeErrors :=
  fun _ => "cannot convert input with unit 'us'".

End Pandas.

(** ** The interpreter: exceptions, the world and the script monad *)

Module Python.
Import Pandas.

Inductive exn : Type :=
  | SyntaxError
  | SystemExit (code : Z)
  | ImportError (name : string)
  | IndexError
  | KeyError (key : string)
  | ValueError (msg : string)
  | FileNotFoundError (path : string).

(** What the interpreter gives a script: its version, the packages that can
    be imported, and the command line. *)
Record interpreter : Type := {
  version_info : nat * nat;
  importable : string -> bool;
  argv : list string
}.

(** Keyword arguments of the drawing calls, [None] when not passed. *)
Record style : Type := {
  color : option string;
  alpha : option Q;
  linewidth : option Q;
  linestyle : option string;
  label : option string
}.

Definition no_style : style :=
  {| color := None; alpha := None; linewidth := None; linestyle := None;
     label := None |}.

(** A pyplot function acts on the current axes, a method on its own. *)
Inductive target : Type :=
  | Current
  | Ax (a : nat).

Inductive operand (Y : Type) : Type :=
  | Scalar (c : Y)
  | Array (a : list Y).
Arguments Scalar {Y} c.
Arguments Array {Y} a.

(** What a script does to the outside, in the order it does it: lines on
    standard output, files opened for reading, and the calls that reach
    matplotlib with the data they carry. *)
Inductive event (X Y : Type) : Type :=
  | Print (line : string)
  | ReadCsv (path : string)
  | Figure (figsize : nat * nat)
  | Subplots (nrows ncols : nat) (sharex : bool) (figsize : nat * nat)
  | Twinx (ax : nat)
  | Plot (on : target) (x : list X) (y : list Y) (kw : style)
  | FillBetween (ax : nat) (x : list X) (y1 y2 : operand Y)
      (where_ : option (list bool)) (kw : style)
  | SetXlabel (on : target) (text : string)
  | SetYlabel (on : target) (text : string) (kw : style)
  | SetTitle (on : target) (text : string)
  | Suptitle (text : string)
  | TickParams (ax : nat) (axis : string) (labelcolor : option string)
  | Legend (on : target) (loc : option string)
  | Grid (on : target) (which : option string) (kw : style)
  | SetYscale (on : target) (scale : string)
  | SetYlim (ax : nat) (bottom : Y)
  | MinorticksOn
  | TightLayout
  | Show.
Arguments Print {X Y} line.
Arguments ReadCsv {X Y} path.
Arguments Figure {X Y} figsize.
Arguments Subplots {X Y} nrows ncols sharex figsize.
Arguments Twinx {X Y} ax.
Arguments Plot {X Y} on x y kw.
Arguments FillBetween {X Y} ax x y1 y2 where_ kw.
Arguments SetXlabel {X Y} on text.
Arguments SetYlabel {X Y} on text kw.
Arguments SetTitle {X Y} on text.
Arguments Suptitle {X Y} text.
Arguments TickParams {X Y} ax axis labelcolor.
Arguments Legend {X Y} on loc.
Arguments Grid {X Y} on which kw.
Arguments SetYscale {X Y} on scale.
Arguments SetYlim {X Y} ax bottom.
Arguments MinorticksOn {X Y}.
Arguments TightLayout {X Y}.
Arguments Show {X Y}.

(** The world a script runs in: the files it can see, what it has done so
    far, and the number of axes created so far. *)
Record world (X Y : Type) : Type := {
  files : gmap string DataFrame;
  log : list (event X Y);
  axes_count : nat
}.
Arguments files {X Y} w.
Arguments log {X Y} w.
Arguments axes_count {X Y} w.

Section Monad.
Context {X Y : Type}.

  (** A computation either raises or returns, and the world it leaves is
      kept in both cases. *)
Definition M (R : Type) : Type := world X Y -> world X Y * (exn + R).

Definition ret {R : Type} (r : R) : M R := fun w => (w, inr r).

Definition bind {R S : Type} (m : M R) (k : R -> M S) : M S :=
    fun w =>
      match m w with
      | (w', inl e) => (w', inl e)
      | (w', inr r) => k r w'
      end.

Definition raise {R : Type} (e : exn) : M R := fun w => (w, inl e).

Definition emit (ev : event X Y) : M unit :=
    fun w =>
      ({| files := files w; log := log w ++ [ev]; axes_count := axes_count w |},
       inr tt).

Definition new_axes : M nat :=
    fun w =>
      ({| files := files w; log := log w; axes_count := S (axes_count w) |},
       inr (axes_count w)).

Definition when (b : bool) (m : M unit) : M unit :=
    if b then m else ret tt.

  (** The process exit status after a script ran to its end, called
      [sys.exit], or died of an exception nobody caught. *)
Definition exit_status {R : Type} (r : exn + R) : Z :=
    match r with
    | inr _ => 0%Z
    | inl (SystemExit code) => code
    | inl _ => 1%Z
    end.

  (** A script started in a fresh process. *)
Definition run {R : Type} (m : M R) (fs : gmap string DataFrame)
    : world X Y * (exn + R) :=
    m {| files := fs; log := []; axes_count := 0 |}.
End Monad.

Declare Scope script_scope.
Delimit Scope script_scope with script.
Notation "x <- m ;; k" := (bind m (fun x => k))
  (at level 100, m at next level, right associativity) : script_scope.
Notation "m ;; k" := (bind m (fun _ => k))
  (at level 100, right associativity) : script_scope.

End Python.

(** ** matplotlib, as far as the scripts depend on it

    Each call is recorded in the log with the data it was given.  The two
    drawing calls check the shapes of their data first, as the library does,
    and raise [ValueError] without drawing when they do not fit; so does
    [set_ylim] on a limit that is not finite.  Whether a figure can be laid
    out depends on the library's handling of the axes (a date axis whose
    limits it cannot convert makes [tight_layout] raise): that verdict is
    taken as a parameter. *)

Module Matplotlib.
Import Numpy Python.
Local Open Scope script_scope.

(** The library's verdict on the figure built by the calls so far, when it
    is asked to lay it out: [None] when it can, the message of the
    [ValueError] it raises when it cannot. *)
Class Layout (X Y : Type) := layout_error : list (event X Y) -> option string.

(** A library that lays out every figure. *)
Definition accepting {X Y : Type} : Layout X Y := fun _ => None.

(** A library that lays out no figure. *)
Definition rejecting {X Y : Type} : Layout X Y :=
  fun _ => Some "Date ordinal out of range".

Section Calls.
Context {X Y : Type} {dtype : Dtype Y} {lib : Layout X Y}.

Definition operand_length (o : operand Y) : option nat :=
  match o with
  | Scalar _ => None
  | Array a => Some (length a)
  end.

(** numpy's broadcasting rule on shapes of at most one dimension: scalars and
    arrays of length one fit anything, all other lengths must be equal. *)
Fixpoint broadcastable (shapes : list (option nat)) (common : option nat) : bool :=
  match shapes with
  | [] => true
  | None :: rest | Some 1%nat :: rest => broadcastable rest common
  | Some n :: rest =>
      match common with
      | None => broadcastable rest (Some n)
      | Some m => Nat.eqb n m && broadcastable rest common
      end
  end.

(** [plt.figure(figsize=...)] *)
Definition plt_figure (figsize : nat * nat) : M (X:=X) (Y:=Y) unit :=
  emit (Figure figsize).

(** [fig, ax = plt.subplots(figsize=...)] *)
Definition plt_subplots_single (figsize : nat * nat) : M (X:=X) (Y:=Y) nat :=
  emit (Subplots 1 1 false figsize) ;; new_axes.

(** [fig, (ax1, ax2) = plt.subplots(2, 1, sharex=..., figsize=...)] *)
Definition plt_subplots_column (sharex : bool) (figsize : nat * nat)
  : M (X:=X) (Y:=Y) (nat * nat) :=
  emit (Subplots 2 1 sharex figsize) ;;
  a1 <- new_axes ;;
  a2 <- new_axes ;;
  ret (a1, a2).

(** [ax.twinx()] *)
Definition ax_twinx (ax : nat) : M (X:=X) (Y:=Y) nat :=
  emit (Twinx ax) ;; new_axes.

(** [plt.plot(x, y, ...)] and [ax.plot(x, y, ...)]: x and y must have the same
    first dimension. *)
Definition plot (on : target) (x : list X) (y : list Y) (kw : style)
  : M (X:=X) (Y:=Y) unit :=
  if Nat.eqb (length x) (length y)
  then emit (Plot on x y kw)
  else raise (ValueError "x and y must have same first dimension").

(** [ax.fill_between(x, y1, y2, where=..., ...)]: a [where] must have the size
    of [x], and [x], [y1], [y2] must broadcast to one shape. *)
Definition ax_fill_between (ax : nat) (x : list X) (y1 y2 : operand Y)
    (where_ : option (list bool)) (kw : style) : M (X:=X) (Y:=Y) unit :=
  if negb (from_option (fun wh => Nat.eqb (length wh) (length x)) true where_)
  then raise (ValueError "where size does not match x size")
  else if broadcastable
            [Some (length x); operand_length y1; operand_length y2] None
  then emit (FillBetween ax x y1 y2 where_ kw)
  else raise (ValueError "shape mismatch: objects cannot be broadcast to a single shape").

Definition plt_xlabel (text : string) : M (X:=X) (Y:=Y) unit :=
  emit (SetXlabel Current text).

Definition plt_ylabel (text : string) : M (X:=X) (Y:=Y) unit :=
  emit (SetYlabel Current text no_style).

Definition ax_set_ylabel (ax : nat) (text : string) (kw : style)
  : M (X:=X) (Y:=Y) unit :=
  emit (SetYlabel (Ax ax) text kw).

Definition plt_title (text : string) : M (X:=X) (Y:=Y) unit :=
  emit (SetTitle Current text).

Definition plt_suptitle (text : string) : M (X:=X) (Y:=Y) unit :=
  emit (Suptitle text).

Definition ax_tick_params (ax : nat) (axis : string) (labelcolor : option string)
  : M (X:=X) (Y:=Y) unit :=
  emit (TickParams ax axis labelcolor).

Definition legend (on : target) (loc : option string) : M (X:=X) (Y:=Y) unit :=
  emit (Legend on loc).

Definition grid (on : target) (which : option string) (kw : style)
  : M (X:=X) (Y:=Y) unit :=
  emit (Grid on which kw).

Definition set_yscale (on : target) (scale : string) : M (X:=X) (Y:=Y) unit :=
  emit (SetYscale on scale).

(** [ax.set_ylim(bottom=...)]: a limit that is NaN or infinite is refused. *)
Definition ax_set_ylim (ax : nat) (bottom : Y) : M (X:=X) (Y:=Y) unit :=
  if isfinite bottom
  then emit (SetYlim ax bottom)
  else raise (ValueError "Axis limits cannot be NaN or Inf").

Definition plt_minorticks_on : M (X:=X) (Y:=Y) unit := emit MinorticksOn.

(** [plt.tight_layout()]: raises when the library cannot lay the figure
    out. *)
Definition plt_tight_layout : M (X:=X) (Y:=Y) unit :=
  fun w =>
    match layout_error (log w) with
    | None => emit TightLayout w
    | Some msg => raise (ValueError msg) w
    end.

(** [plt.show()]: the figures built so far are displayed. *)
Definition plt_show : M (X:=X) (Y:=Y) unit := emit Show.
End Calls.

End Matplotlib.

(** ** util.py *)

Module Util.
Import Numpy Python Matplotlib.
Local Open Scope script_scope.

Section Plots.
Context {X A : Type} {dtype : Dtype A} {lib : Layout X A}.

(** [def plot_equity_dd(time, equity, xlabel, ylabel, title, y_lim=0.0,
    log=False)] *)
Definition plot_equity_dd (time : list X) (equity : list A)
    (xlabel ylabel title : string) (y_lim : A) (log : bool)
  : M (X:=X) (Y:=A) unit :=
  let peak := Drawdown.peak equity in
  let drawdown := elementwise subtract equity peak in
  let drawdown_pct :=
    elementwise_scalar multiply (elementwise true_divide drawdown peak)
      (of_int 100) in
  ax1 <- plt_subplots_single (16, 6)%nat ;;
  ax_fill_between ax1 time (Array equity) (Scalar (of_int 0)) None
    {| color := Some "slateblue"; alpha := Some (3 # 10); linewidth := None;
       linestyle := None; label := None |} ;;
  plot (Ax ax1) time equity
    {| color := Some "black"; alpha := None; linewidth := Some (12 # 10);
       linestyle := None; label := Some "Equity" |} ;;
  ax2 <- ax_twinx ax1 ;;
  ax_fill_between ax2 time (Scalar (of_int 0)) (Array drawdown_pct)
    (Some (elementwise_scalar less drawdown_pct (of_int 0)))
    {| color := Some "red"; alpha := Some (5 # 10); linewidth := None;
       linestyle := None; label := Some "Drawdown (%)" |} ;;
  ax_set_ylabel ax1 "Equity"
    {| color := Some "black"; alpha := None; linewidth := None;
       linestyle := None; label := None |} ;;
  ax_set_ylabel ax2 "Drawdown (%)"
    {| color := Some "black"; alpha := None; linewidth := None;
       linestyle := None; label := None |} ;;
  ax_tick_params ax1 "y" (Some "black") ;;
  ax_tick_params ax2 "y" (Some "black") ;;
  plt_title "Equity Curve with Drawdown (%) on Right Axis" ;;
  grid (Ax ax1) None no_style ;;
  when log (set_yscale (Ax ax1) "log") ;;
  when (truth y_lim) (ax_set_ylim ax1 y_lim) ;;
  plt_tight_layout ;;
  plt_show.

(** [def plot_equity(x, y, xlabel="x", ylabel="y", title="title",
    log=False)] *)
Definition plot_equity (x : list X) (y : list A)
    (xlabel ylabel title : string) (log : bool) : M (X:=X) (Y:=A) unit :=
  plt_figure (12, 6)%nat ;;
  plot Current x y
    {| color := None; alpha := None; linewidth := None; linestyle := None;
       label := Some "Equity" |} ;;
  plt_xlabel xlabel ;;
  plt_ylabel ylabel ;;
  plt_title title ;;
  when log (set_yscale Current "log") ;;
  grid Current (Some "major")
    {| color := None; alpha := None; linewidth := Some (75 # 100);
       linestyle := Some "-"; label := None |} ;;
  grid Current (Some "minor")
    {| color := None; alpha := None; linewidth := Some (5 # 10);
       linestyle := Some "--"; label := None |} ;;
  plt_minorticks_on ;;
  legend Current None ;;
  plt_tight_layout ;;
  plt_show.
End Plots.

End Util.

(** ** The drawdown computation on array objects

    Python passes arrays by reference.  Here the arrays live in a store, a
    name is an address in it, and each numpy call of the computation reads
    its operands from the store and allocates its result. *)

Module Objects.
Import Numpy.

Section Store.
Context {A : Type} `{Dtype A}.

(** The store: the array at address [r] is the [r]-th one. *)
Definition store : Type := list (list A).

(** A computation on the store; [None] when a name refers to nothing. *)
Definition Op (R : Type) : Type := store -> option (store * R).

Definition load (r : nat) : Op (list A) :=
  fun h => a ← h !! r; Some (h, a).

Definition alloc (a : list A) : Op nat :=
  fun h => Some (h ++ [a], length h).

Definition then_ {R T : Type} (m : Op R) (k : R -> Op T) : Op T :=
  fun h => '(h', r) ← m h; k r h'.

(** [np.maximum.accumulate(a)] *)
Definition np_maximum_accumulate (a : nat) : Op nat :=
  then_ (load a) (fun va => alloc (accumulate maximum va)).

(** [a - b] *)
Definition np_subtract (a b : nat) : Op nat :=
  then_ (load a) (fun va =>
  then_ (load b) (fun vb => alloc (elementwise subtract va vb))).

(** [a / b] *)
Definition np_true_divide (a b : nat) : Op nat :=
  then_ (load a) (fun va =>
  then_ (load b) (fun vb => alloc (elementwise true_divide va vb))).

(** [a * c] for a Python number [c] *)
Definition np_multiply_scalar (a : nat) (c : Z) : Op nat :=
  then_ (load a) (fun va => alloc (elementwise_scalar multiply va (of_int c))).

(** Lines 6 to 8 of [plot_equity_dd]; the names bound are returned. *)
Definition drawdown_computation (equity : nat) : Op (nat * nat * nat) :=
  then_ (np_maximum_accumulate equity) (fun peak =>
  then_ (np_subtract equity peak) (fun drawdown =>
  then_ (np_true_divide drawdown peak) (fun quotient =>
  then_ (np_multiply_scalar quotient 100) (fun drawdown_pct =>
  fun h => Some (h, (peak, drawdown, drawdown_pct)))))).
End Store.

End Objects.

(** ** plot_recorder.py *)

Module PlotRecorder.
Import Pandas Python Matplotlib.
Local Open Scope script_scope.

Section Script.
(** pandas' conversion of one value counted in microseconds since the epoch
    into a timestamp, [None] where pandas rejects the value.  The script
    does not depend on which values those are. *)
Variable to_datetime_us : cell -> option cell.

(** The installed matplotlib, as far as the layout of the figure goes, and
    the installed pandas, as far as the text of its errors goes. *)
Context {lib : Layout cell cell} {pd : DatetimeErrors}.

Abbreviation script := (M (X:=cell) (Y:=cell)).

(** [import name] *)
Definition import_ (py : interpreter) (name : string) : script unit :=
  if importable py name then ret tt else raise (ImportError name).

(** [sys.version_info < (major, minor)], the order of tuples. *)
Definition version_lt (v w : nat * nat) : bool :=
  Nat.ltb (fst v) (fst w) || (Nat.eqb (fst v) (fst w) && Nat.ltb (snd v) (snd w)).

Definition print (line : string) : script unit := emit (Print line).

Definition sys_exit {R : Type} (code : Z) : script R := raise (SystemExit code).

(** [sys.argv[i]] *)
Definition argv_item (py : interpreter) (i : nat) : script string :=
  match argv py !! i with
  | Some a => ret a
  | None => raise IndexError
  end.

(** [pd.read_csv(path)] *)
Definition pd_read_csv (path : string) : script DataFrame :=
  emit (ReadCsv path) ;;
  fun w =>
    match files w !! path with
    | Some df => (w, inr df)
    | None => (w, inl (FileNotFoundError path))
    end.

(** [df[key]] *)
Definition getitem (df : DataFrame) (key : string) : script (list cell) :=
  match df !! key with
  | Some column => ret column
  | None => raise (KeyError key)
  end.

(** [pd.to_datetime(column, unit='us')]: every value is converted, or the
    call raises. *)
Definition pd_to_datetime (column : list cell) : script (list cell) :=
  match mapM to_datetime_us column with
  | Some converted => ret converted
  | None => raise (ValueError (datetime_error column))
  end.

(** The packages the loop of lines 13 to 17 finds missing. *)
Definition missing_packages (py : interpreter) (required : list string)
  : list string :=
  List.filter (fun pkg => negb (importable py pkg)) required.

Definition line_style (c : option string) (a : option Q) (l : string) : style :=
  {| color := c; alpha := a; linewidth := None; linestyle := None;
     label := Some l |}.

(** The script, top to bottom.  The file holds f-strings (lines 20 and
    71): an interpreter older than 3.6 rejects it with a syntax error before
    it runs any of it. *)
Definition plot_recorder (py : interpreter) : script unit :=
  when (version_lt (version_info py) (3, 6)%nat) (raise SyntaxError) ;;
  import_ py "pandas" ;;
  import_ py "matplotlib" ;;
  when (version_lt (version_info py) (3, 7)%nat)
    (print "Python 3.7 or higher is required." ;;
     sys_exit 1) ;;
  let required := ["matplotlib"; "pandas"] in
  let missing := missing_packages py required in
  when (negb (Nat.eqb (length missing) 0))
    (print ("Missing required packages: " ++ String.concat ", " missing) ;;
     print ("Install them with: pip install " ++ String.concat " " missing) ;;
     sys_exit 1) ;;
  when (Nat.ltb (length (argv py)) 3)
    (print "Usage: python plot_recorder.py <csv_filename> <asset_id>" ;;
     sys_exit 1) ;;
  csv_filename <- argv_item py 1 ;;
  asset_id <- argv_item py 2 ;;
  df <- pd_read_csv csv_filename ;;
  timestamp <- getitem df "timestamp" ;;
  converted <- pd_to_datetime timestamp ;;
  let df := <["timestamp" := converted]> df in
  axes <- plt_subplots_column true (14, 8)%nat ;;
  let ax1 := fst axes in
  let ax2 := snd axes in
  let color_equity := "tab:blue" in
  let color_mid := "tab:gray" in
  x <- getitem df "timestamp" ;;
  y <- getitem df "equity" ;;
  plot (Ax ax1) x y (line_style None None "Equity") ;;
  ax_set_ylabel ax1 "Equity" no_style ;;
  ax_tick_params ax1 "y" None ;;
  legend (Ax ax1) (Some "upper left") ;;
  grid (Ax ax1) None no_style ;;
  ax1b <- ax_twinx ax1 ;;
  x <- getitem df "timestamp" ;;
  y <- getitem df "mid_price" ;;
  plot (Ax ax1b) x y (line_style (Some color_mid) (Some (3 # 10)) "Price") ;;
  ax_set_ylabel ax1b "Price" no_style ;;
  ax_tick_params ax1b "y" None ;;
  legend (Ax ax1b) (Some "upper right") ;;
  x <- getitem df "timestamp" ;;
  y <- getitem df "position" ;;
  plot (Ax ax2) x y (line_style None None "Position") ;;
  ax_set_ylabel ax2 "Position" no_style ;;
  ax_tick_params ax2 "y" None ;;
  legend (Ax ax2) (Some "upper left") ;;
  grid (Ax ax2) None no_style ;;
  ax2b <- ax_twinx ax2 ;;
  x <- getitem df "timestamp" ;;
  y <- getitem df "mid_price" ;;
  plot (Ax ax2b) x y (line_style (Some color_mid) (Some (3 # 10)) "Price") ;;
  ax_set_ylabel ax2b "Price" no_style ;;
  ax_tick_params ax2b "y" None ;;
  legend (Ax ax2b) (Some "upper right") ;;
  plt_xlabel "Timestamp" ;;
  plt_suptitle ("Asset " ++ asset_id ++ " Equity and Position Over Time") ;;
  plt_tight_layout ;;
  plt_show.
End Script.

End PlotRecorder.

(** * Properties *)

(** ** The order of numpy on [num] *)

Module OrderFacts.
Import Numpy.

Lemma num_le_refl (a : num) : isnan a = false -> num_less_equal a a = true.
Proof. destruct a; try done. intros _. apply Qle_bool_iff, Qle_refl. Qed.

Lemma num_le_trans (a b c : num) :
  num_less_equal a b = true -> num_less_equal b c = true ->
  num_less_equal a c = true.
Proof.
  destruct a as [x | | |], b as [y | | |], c as [z | | |]; try done.
  cbn. rewrite !Qle_bool_iff. apply Qle_trans.
Qed.

Lemma num_le_total (a b : num) :
  isnan a = false -> isnan b = false ->
  num_less_equal a b = false -> num_less_equal b a = true.
Proof.
  destruct a as [x | | |], b as [y | | |]; try done.
  cbn. intros _ _ Hab. apply Qle_bool_iff.
  destruct (Qlt_le_dec y x) as [Hlt | Hle]; [by apply Qlt_le_weak|].
  apply Qle_bool_iff in Hle. congruence.
Qed.

Lemma num_le_notnan (a b : num) :
  num_less_equal a b = true -> isnan a = false /\ isnan b = false.
Proof. by destruct a, b. Qed.

(** Where [np.maximum] does not yield a NaN it yields an upper bound of
    both operands. *)
Lemma maximum_bounds (a b : num) :
  isnan (maximum a b) = false ->
  num_less_equal a (maximum a b) = true
  /\ num_less_equal b (maximum a b) = true.
Proof.
  unfold maximum. cbn [greater_equal isnan num_dtype].
  destruct (num_less_equal b a) eqn:Hba; cbn [orb].
  - intros Ha. split; [by apply num_le_refl | done].
  - destruct (num_isnan a) eqn:Ha; [by intros; congruence|].
    intros Hb. split; [by apply num_le_total | by apply num_le_refl].
Qed.

End OrderFacts.

(** ** The running peak *)

Module PeakFacts.
Import Numpy Drawdown OrderFacts.

Lemma maximum_fin (a x : Q) :
  maximum (Fin a) (Fin x) = Fin (if Qle_bool x a then a else x).
Proof.
  unfold maximum; simpl. rewrite orb_false_r. by destruct (Qle_bool x a).
Qed.

Lemma Qle_bool_false (x a : Q) : Qle_bool x a = false -> a <= x.
Proof.
  intros Hb. destruct (Qlt_le_dec x a) as [Hlt | Hle]; [|done].
  apply Qlt_le_weak, Qle_bool_iff in Hlt. congruence.
Qed.

(** What an accumulation that has reached [a] yields on the rest [E] of a
    sequence of numbers: numbers again, one for each of [E], none below [a],
    each at least the number of [E] at its index, in non-decreasing order. *)
Record running_from (a : Q) (E P : list Q) : Prop := {
  running_length : length P = length E;
  running_floor : forall (i : nat) (p : Q), P !! i = Some p -> a <= p;
  running_above : forall (i : nat) (e p : Q),
    E !! i = Some e -> P !! i = Some p -> e <= p;
  running_mono : forall (i j : nat) (p q : Q),
    (i <= j)%nat -> P !! i = Some p -> P !! j = Some q -> p <= q
}.

Lemma accumulate_from_numbers (E : list Q) :
  forall a : Q, exists P : list Q,
    accumulate_from maximum (Fin a) (Fin <$> E) = Fin <$> P
    /\ running_from a E P.
Proof.
  induction E as [| x E IH]; intros a.
  - exists []. split; [done|]. split; try done; intros; simplify_eq.
  - set (m := if Qle_bool x a then a else x).
    assert (Ham : a <= m).
    { subst m. destruct (Qle_bool x a) eqn:Hb; [apply Qle_refl|].
      by apply Qle_bool_false. }
    assert (Hxm : x <= m).
    { subst m. destruct (Qle_bool x a) eqn:Hb; [|apply Qle_refl].
      by apply Qle_bool_iff. }
    destruct (IH m) as (P & HP & [Hlen Hfloor Habove Hmono]).
    exists (m :: P). split.
    + rewrite fmap_cons. cbn [accumulate_from]. rewrite maximum_fin.
      fold m. by rewrite HP.
    + split.
      * simpl. by rewrite Hlen.
      * intros [| i] p Hp; simplify_eq/=; [done|].
        eapply Qle_trans; [exact Ham | by eapply Hfloor].
      * intros [| i] e p He Hp; simplify_eq/=; [done | by eapply Habove].
      * intros [| i] [| j] p q Hij Hp Hq; simplify_eq/=.
        -- apply Qle_refl.
        -- by eapply Hfloor.
        -- lia.
        -- eapply Hmono; [| done | done]. lia.
Qed.

(** The running peak of a sequence of numbers. *)
Lemma peak_numbers (E : list Q) :
  exists P : list Q,
    peak (Fin <$> E) = Fin <$> P
    /\ length P = length E
    /\ P !! 0%nat = E !! 0%nat
    /\ (forall (i : nat) (e p : Q), E !! i = Some e -> P !! i = Some p -> e <= p)
    /\ (forall (i j : nat) (p q : Q),
          (i <= j)%nat -> P !! i = Some p -> P !! j = Some q -> p <= q).
Proof.
  destruct E as [| x E].
  - exists []. repeat split; try done; intros; simplify_eq.
  - destruct (accumulate_from_numbers E x) as (P & HP & [Hlen Hfloor Habove Hmono]).
    exists (x :: P). unfold peak. rewrite fmap_cons. cbn [accumulate].
    rewrite HP. repeat split.
    + simpl. by rewrite Hlen.
    + intros [| i] e p He Hp; simplify_eq/=; [apply Qle_refl | by eapply Habove].
    + intros [| i] [| j] p q Hij Hp Hq; simplify_eq/=.
      * apply Qle_refl.
      * by eapply Hfloor.
      * lia.
      * eapply Hmono; [| done | done]. lia.
Qed.

Lemma accumulate_from_length {A : Type} (f : A -> A -> A) (a : list A) :
  forall acc : A, length (accumulate_from f acc a) = length a.
Proof. induction a as [| x a IH]; intros acc; simpl; [done | by rewrite IH]. Qed.

(** The peak has the shape of the equity, whatever the dtype. *)
Lemma peak_length {A : Type} `{Dtype A} (equity : list A) :
  length (peak equity) = length equity.
Proof.
  destruct equity as [| x equity]; [done|].
  unfold peak. simpl. by rewrite accumulate_from_length.
Qed.

Lemma maximum_choice {A : Type} `{Dtype A} (a b : A) :
  maximum a b = a \/ maximum a b = b.
Proof. unfold maximum. destruct (greater_equal a b || isnan a); auto. Qed.

Lemma accumulate_from_attained {A : Type} `{Dtype A} (a : list A) :
  forall (acc : A) (i : nat) (p : A),
    accumulate_from maximum acc a !! i = Some p ->
    p = acc \/ exists j : nat, (j <= i)%nat /\ a !! j = Some p.
Proof.
  induction a as [| x a IH]; intros acc i p Hp; [done|].
  cbn [accumulate_from] in Hp. destruct i as [| i]; simplify_eq/=.
  - destruct (maximum_choice acc x) as [-> | ->]; [by left|].
    right. exists 0%nat. split; [lia | done].
  - destruct (IH _ _ _ Hp) as [-> | (j & Hj & Haj)].
    + destruct (maximum_choice acc x) as [-> | ->]; [by left|].
      right. exists 0%nat. split; [lia | done].
    + right. exists (S j). split; [lia | done].
Qed.

Lemma peak_reached {A : Type} `{Dtype A} (equity : list A) (i : nat) (p : A) :
  peak equity !! i = Some p ->
  exists j : nat, (j <= i)%nat /\ equity !! j = Some p.
Proof.
  destruct equity as [| x equity]; [done|].
  unfold peak. cbn [accumulate]. destruct i as [| i]; intros Hp; simplify_eq/=.
  - exists 0%nat. split; [lia | done].
  - destruct (accumulate_from_attained _ _ _ _ Hp) as [-> | (j & Hj & Haj)].
    + exists 0%nat. split; [lia | done].
    + exists (S j). split; [lia | done].
Qed.


(** What an accumulation of [np.maximum] that has reached [acc] yields on
    the rest [a] of an array: wherever the result is not a NaN it is at
    least [acc], at least the value of [a] at its index, and at least every
    earlier result. *)
Lemma accumulate_from_bounds (a : list num) :
  forall acc : num,
    (forall (i : nat) (p : num),
       accumulate_from maximum acc a !! i = Some p -> isnan p = false ->
       num_less_equal acc p = true)
    /\ (forall (i : nat) (e p : num),
          a !! i = Some e -> accumulate_from maximum acc a !! i = Some p ->
          isnan p = false -> num_less_equal e p = true)
    /\ (forall (i j : nat) (p q : num),
          (i <= j)%nat ->
          accumulate_from maximum acc a !! i = Some p ->
          accumulate_from maximum acc a !! j = Some q ->
          isnan q = false -> num_less_equal p q = true).
Proof.
  induction a as [| x a IH]; intros acc; [by repeat split|].
  cbn [accumulate_from]. set (m := maximum acc x).
  destruct (IH m) as (Hfloor & Habove & Hmono).
  assert (Hm : forall p : num, num_less_equal m p = true ->
               num_less_equal acc p = true /\ num_less_equal x p = true).
  { intros p Hmp. destruct (num_le_notnan _ _ Hmp) as [Hnan _].
    destruct (maximum_bounds acc x Hnan) as [H1 H2]. fold m in H1, H2.
    split; eapply num_le_trans; eauto. }
  repeat split.
  - intros [| i] p Hp Hnan; simplify_eq/=.
    + by destruct (maximum_bounds acc x Hnan).
    + by apply Hm, (Hfloor i).
  - intros [| i] e p He Hp Hnan; simplify_eq/=.
    + by destruct (maximum_bounds acc e Hnan).
    + by apply (Habove i).
  - intros [| i] [| j] p q Hij Hp Hq Hnan; simplify_eq/=.
    + by apply num_le_refl.
    + by apply (Hfloor j).
    + lia.
    + apply (Hmono i j); [lia | done..].
Qed.

(** The running peak of any array: wherever it is not a NaN it is at least
    the equity at its index and at least every earlier peak. *)
Lemma peak_bounds (equity : list num) :
  (forall (i : nat) (e p : num),
     equity !! i = Some e -> peak equity !! i = Some p -> isnan p = false ->
     num_less_equal e p = true)
  /\ (forall (i j : nat) (p q : num),
        (i <= j)%nat -> peak equity !! i = Some p -> peak equity !! j = Some q ->
        isnan q = false -> num_less_equal p q = true).
Proof.
  destruct equity as [| x equity]; [by split|].
  unfold peak. cbn [accumulate].
  destruct (accumulate_from_bounds equity x) as (Hfloor & Habove & Hmono).
  split.
  - intros [| i] e p He Hp Hnan; simplify_eq/=.
    + by apply num_le_refl.
    + by apply (Habove i).
  - intros [| i] [| j] p q Hij Hp Hq Hnan; simplify_eq/=.
    + by apply num_le_refl.
    + by apply (Hfloor j).
    + lia.
    + apply (Hmono i j); [lia | done..].
Qed.

(** The running peak of an array without NaN holds no NaN. *)
Lemma peak_notnan (equity : list num) :
  Forall (fun e => isnan e = false) equity ->
  Forall (fun p => isnan p = false) (peak equity).
Proof.
  intros Hall. apply Forall_lookup. intros i p Hp.
  destruct (peak_reached equity i p Hp) as (j & _ & Hj).
  by apply (Forall_lookup_1 _ _ _ _ Hall Hj).
Qed.

End PeakFacts.

(** ** The drawdown percentage *)

Module DrawdownFacts.
Import Numpy Drawdown OrderFacts PeakFacts.

(** The percentage at an index is computed from the equity and the peak at
    that index alone. *)
Lemma drawdown_pct_lookup {A : Type} `{Dtype A} (equity : list A) (i : nat) (e p : A) :
  equity !! i = Some e ->
  peak equity !! i = Some p ->
  drawdown_pct equity !! i
  = Some (multiply (true_divide (subtract e p) p) (of_int 100)).
Proof.
  intros He Hp. unfold drawdown_pct, drawdown, elementwise_scalar, elementwise.
  rewrite list_lookup_fmap, !lookup_zip_with, He, Hp. done.
Qed.

Lemma drawdown_lookup {A : Type} `{Dtype A} (equity : list A) (i : nat) (e p : A) :
  equity !! i = Some e ->
  peak equity !! i = Some p ->
  drawdown equity !! i = Some (subtract e p).
Proof.
  intros He Hp. unfold drawdown, elementwise.
  by rewrite lookup_zip_with, He, Hp.
Qed.

Lemma drawdown_pct_length {A : Type} `{Dtype A} (equity : list A) :
  length (drawdown_pct equity) = length equity.
Proof.
  unfold drawdown_pct, drawdown, elementwise_scalar, elementwise.
  rewrite length_fmap, !length_zip_with, peak_length. lia.
Qed.

Lemma equity_at_peak {A : Type} `{Dtype A} (equity : list A) (i : nat) (p : A) :
  peak equity !! i = Some p -> exists e : A, equity !! i = Some e.
Proof.
  intros Hp. apply lookup_lt_is_Some. apply lookup_lt_Some in Hp.
  by rewrite peak_length in Hp.
Qed.

Lemma Qzero_false (x : Q) : ~ x == 0 -> Qzero x = false.
Proof.
  intros Hx. unfold Qzero. destruct (Qeq_bool x 0) eqn:Hb; [|done].
  by apply Qeq_bool_iff in Hb.
Qed.

Lemma Qzero_true (x : Q) : x == 0 -> Qzero x = true.
Proof. intros Hx. by apply Qeq_bool_iff. Qed.

Lemma Qneg_true (x : Q) : x < 0 -> Qneg x = true.
Proof.
  intros Hx. unfold Qneg. destruct (Qle_bool 0 x) eqn:Hb; [|done].
  apply Qle_bool_iff in Hb. lra.
Qed.

Lemma Qneg_false (x : Q) : 0 <= x -> Qneg x = false.
Proof. intros Hx. unfold Qneg. apply Qle_bool_iff in Hx. by rewrite Hx. Qed.

(** The sign of a value, the one thing rounding to nearest keeps. *)
Inductive sign : Type := Negative | Zero | Positive | NotANumber.

Definition Qsign (q : Q) : sign :=
  if Qzero q then Zero else if Qneg q then Negative else Positive.

Definition sign_of (a : num) : sign :=
  match a with
  | Fin q => Qsign q
  | PInf => Positive
  | NInf => Negative
  | NaN => NotANumber
  end.

Lemma Qsign_negative (q : Q) : q < 0 -> Qsign q = Negative.
Proof.
  intros Hq. unfold Qsign. rewrite Qzero_false by lra. by rewrite Qneg_true.
Qed.

Lemma Qsign_zero (q : Q) : q == 0 -> Qsign q = Zero.
Proof. intros Hq. unfold Qsign. by rewrite Qzero_true. Qed.

Lemma Qsign_positive (q : Q) : 0 < q -> Qsign q = Positive.
Proof.
  intros Hq. unfold Qsign. rewrite Qzero_false by lra.
  rewrite Qneg_false by lra. done.
Qed.

Lemma Qsign_cases (q : Q) :
  (q < 0 /\ Qsign q = Negative) \/ (q == 0 /\ Qsign q = Zero)
  \/ (0 < q /\ Qsign q = Positive).
Proof.
  destruct (Q_dec q 0) as [[Hlt | Hgt] | Heq].
  - left. split; [done | by apply Qsign_negative].
  - right. right. split; [done | by apply Qsign_positive].
  - right. left. split; [done | by apply Qsign_zero].
Qed.

Lemma Qsign_proper (q r : Q) : q == r -> Qsign q = Qsign r.
Proof.
  intros Hqr.
  destruct (Qsign_cases r) as [[Hr ->] | [[Hr ->] | [Hr ->]]].
  - apply Qsign_negative. lra.
  - apply Qsign_zero. lra.
  - apply Qsign_positive. lra.
Qed.

Lemma overflow_threshold_positive : 0 < overflow_threshold.
Proof. reflexivity. Qed.

(** An overflow keeps the sign. *)
Lemma sign_finite_or_inf (q : Q) : sign_of (finite_or_inf q) = Qsign q.
Proof.
  unfold finite_or_inf.
  destruct (Qle_bool overflow_threshold (Qabs q)) eqn:Hb; [|done].
  apply Qle_bool_iff in Hb.
  pose proof overflow_threshold_positive as Hpos.
  destruct (Qsign_cases q) as [[Hs ->] | [[Hs ->] | [Hs ->]]].
  - by rewrite Qneg_true.
  - rewrite Hs in Hb. change (Qabs 0) with 0 in Hb. lra.
  - rewrite Qneg_false by lra. done.
Qed.

Lemma finite_or_inf_number (q r : Q) : finite_or_inf q = Fin r -> q = r.
Proof.
  unfold finite_or_inf. destruct (Qle_bool overflow_threshold (Qabs q)).
  - by destruct (Qneg q).
  - by intros [= ->].
Qed.

(** The comparisons with zero read off the sign. *)
Lemma sign_less_equal_zero (a : num) :
  less_equal a (of_int 0) = true <-> sign_of a = Negative \/ sign_of a = Zero.
Proof.
  destruct a as [q | | |]; cbn; [|intuition congruence..].
  change (inject_Z 0) with 0. rewrite Qle_bool_iff.
  destruct (Qsign_cases q) as [[Hs ->] | [[Hs ->] | [Hs ->]]];
    split; try (intuition congruence); intros; lra.
Qed.

Lemma sign_greater_equal_zero (a : num) :
  greater_equal a (of_int 0) = true <-> sign_of a = Positive \/ sign_of a = Zero.
Proof.
  destruct a as [q | | |]; cbn; [|intuition congruence..].
  change (inject_Z 0) with 0. rewrite Qle_bool_iff.
  destruct (Qsign_cases q) as [[Hs ->] | [[Hs ->] | [Hs ->]]];
    split; try (intuition congruence); intros; lra.
Qed.

Lemma sign_less_zero (a : num) :
  less a (of_int 0) = true <-> sign_of a = Negative.
Proof.
  destruct a as [q | | |]; cbn; [|intuition congruence..].
  change (inject_Z 0) with 0. rewrite negb_true_iff.
  destruct (Qsign_cases q) as [[Hs ->] | [[Hs ->] | [Hs ->]]]; split; try done.
  - intros _. destruct (Qle_bool 0 q) eqn:Hb; [|done].
    apply Qle_bool_iff in Hb. lra.
  - intros Hb. assert (Hle : 0 <= q) by lra. apply Qle_bool_iff in Hle. congruence.
  - intros Hb. assert (Hle : 0 <= q) by lra. apply Qle_bool_iff in Hle. congruence.
Qed.

Lemma sign_equal_zero (a : num) :
  equal a (of_int 0) = true <-> sign_of a = Zero.
Proof.
  destruct a as [q | | |]; cbn; [|intuition congruence..].
  change (inject_Z 0) with 0. rewrite Qeq_bool_iff.
  destruct (Qsign_cases q) as [[Hs ->] | [[Hs ->] | [Hs ->]]];
    split; try done; intros; lra.
Qed.

(** A value that is at most a number is a number or minus infinity. *)
Lemma below_number (e : num) (p : Q) :
  num_less_equal e (Fin p) = true ->
  (exists x : Q, e = Fin x /\ x <= p) \/ e = NInf.
Proof.
  destruct e as [x | | |]; try done; [|by right].
  cbn. rewrite Qle_bool_iff. intros Hx. left. by exists x.
Qed.

(** The sign of [e - p] for [e <= p]: negative or zero, and zero exactly
    when [e == p]. *)
Lemma sign_subtract_below (e : num) (p : Q) :
  num_less_equal e (Fin p) = true ->
  (sign_of (subtract e (Fin p)) = Negative /\ equal e (Fin p) = false
   /\ less e (Fin p) = true)
  \/ (sign_of (subtract e (Fin p)) = Zero /\ equal e (Fin p) = true
      /\ less e (Fin p) = false).
Proof.
  intros Hle. destruct (below_number e p Hle) as [(x & -> & Hx) | ->].
  - cbn [subtract num_dtype num_subtract equal less num_equal num_less].
    rewrite sign_finite_or_inf, (Qsign_proper _ (x - p)) by apply Qred_correct.
    destruct (Qlt_le_dec x p) as [Hlt | Hge].
    + left. rewrite Qsign_negative by lra. split; [done|]. split.
      * destruct (Qeq_bool x p) eqn:Hb; [|done]. apply Qeq_bool_iff in Hb. lra.
      * apply negb_true_iff. destruct (Qle_bool p x) eqn:Hb; [|done].
        apply Qle_bool_iff in Hb. lra.
    + right. rewrite Qsign_zero by lra. split; [done|]. split.
      * apply Qeq_bool_iff. lra.
      * apply negb_false_iff. apply Qle_bool_iff. lra.
  - left. done.
Qed.

Lemma Qsign_div_positive (x y : Q) : 0 < y -> Qsign (x / y) = Qsign x.
Proof.
  intros Hy. assert (Hk : 0 < / y) by (by apply Qinv_lt_0_compat).
  unfold Qdiv.
  destruct (Qsign_cases x) as [[Hs ->] | [[Hs ->] | [Hs ->]]].
  - apply Qsign_negative.
    assert (0 < (- x) * / y) by (apply Qmult_lt_0_compat; lra).
    assert (Heq : x * / y == - ((- x) * / y)) by ring. lra.
  - apply Qsign_zero. rewrite Hs. ring.
  - apply Qsign_positive. apply Qmult_lt_0_compat; lra.
Qed.

Definition flip (s : sign) : sign :=
  match s with
  | Negative => Positive
  | Positive => Negative
  | other => other
  end.

Lemma Qsign_div_negative (x y : Q) : y < 0 -> Qsign (x / y) = flip (Qsign x).
Proof.
  intros Hy.
  assert (Heq : x / y == (- x) / (- y)) by (field; lra).
  rewrite (Qsign_proper _ _ Heq), Qsign_div_positive by lra.
  destruct (Qsign_cases x) as [[Hs ->] | [[Hs ->] | [Hs ->]]]; cbn.
  - apply Qsign_positive. lra.
  - apply Qsign_zero. lra.
  - apply Qsign_negative. lra.
Qed.

Lemma Qsign_times_hundred (x : Q) : Qsign (x * inject_Z 100) = Qsign x.
Proof.
  change (inject_Z 100) with 100.
  destruct (Qsign_cases x) as [[Hs ->] | [[Hs ->] | [Hs ->]]].
  - apply Qsign_negative. lra.
  - apply Qsign_zero. lra.
  - apply Qsign_positive. lra.
Qed.

(** Dividing by a positive number keeps the sign, dividing by a negative
    one turns it, multiplying by a hundred keeps it. *)
Lemma sign_divide_positive (a : num) (p : Q) :
  0 < p -> sign_of (true_divide a (Fin p)) = sign_of a.
Proof.
  intros Hp. destruct a as [x | | |]; cbn; [| | |done].
  - rewrite Qzero_false by lra.
    rewrite sign_finite_or_inf, (Qsign_proper _ (x / p)) by apply Qred_correct.
    by apply Qsign_div_positive.
  - by rewrite Qneg_false by lra.
  - by rewrite Qneg_false by lra.
Qed.

Lemma sign_divide_negative (a : num) (p : Q) :
  p < 0 -> sign_of (true_divide a (Fin p)) = flip (sign_of a).
Proof.
  intros Hp. destruct a as [x | | |]; cbn; [| | |done].
  - rewrite Qzero_false by lra.
    rewrite sign_finite_or_inf, (Qsign_proper _ (x / p)) by apply Qred_correct.
    by apply Qsign_div_negative.
  - by rewrite Qneg_true by lra.
  - by rewrite Qneg_true by lra.
Qed.

Lemma sign_times_hundred (a : num) :
  sign_of (multiply a (of_int 100)) = sign_of a.
Proof.
  destruct a as [x | | |]; cbn; try done.
  rewrite sign_finite_or_inf, (Qsign_proper _ (x * inject_Z 100))
    by apply Qred_correct.
  apply Qsign_times_hundred.
Qed.

(** Over a zero peak the percentage is not finite. *)
Lemma percent_zero_peak (e : num) (p : Q) :
  p == 0 ->
  isfinite (multiply (true_divide (subtract e (Fin p)) (Fin p)) (of_int 100))
  = false.
Proof.
  intros Hp.
  assert (Hdiv : forall a : num, isfinite (true_divide a (Fin p)) = false).
  { intros [x | | |]; cbn; rewrite ?(Qzero_true p Hp); try done.
    - destruct (Qzero x); [done | by destruct (Qneg x)].
    - by destruct (Qneg p).
    - by destruct (Qneg p). }
  specialize (Hdiv (subtract e (Fin p))).
  destruct (true_divide (subtract e (Fin p)) (Fin p)) as [x | | |]; done.
Qed.

End DrawdownFacts.

(** ** The drawdown series of [plot_equity_dd] *)

Module DrawdownSpec.
Import Numpy Drawdown Python Util OrderFacts PeakFacts DrawdownFacts.

Ltac conjuncts := repeat match goal with |- _ /\ _ => split end.
Ltac evaluated := vm_compute; reflexivity.

(** C2, as the code has it.  For every array [equity] of floats, NaN and
    infinities included, the running peak computed by
    [np.maximum.accumulate] has the length of [equity] and starts at
    [equity[0]]; at every index where the peak is not a NaN it is at least
    the equity there and at least every earlier peak; and an array without
    a NaN has a peak without a NaN, so that there the peak is at least the
    equity everywhere and never decreases. *)
Theorem running_peak (equity : list num) :
  length (peak equity) = length equity
  /\ peak equity !! 0%nat = equity !! 0%nat
  /\ (forall (i : nat) (e p : num),
        equity !! i = Some e -> peak equity !! i = Some p ->
        isnan p = false ->
        greater_equal p e = true)
  /\ (forall (i j : nat) (p q : num),
        (i <= j)%nat ->
        peak equity !! i = Some p -> peak equity !! j = Some q ->
        isnan q = false ->
        less_equal p q = true)
  /\ (Forall (fun e => isnan e = false) equity ->
      Forall (fun p => isnan p = false) (peak equity)).
Proof.
  destruct (peak_bounds equity) as [Habove Hmono].
  split; [apply peak_length|]. split; [by destruct equity|].
  split; [|split].
  - intros i e p He Hp Hnan. by apply (Habove i).
  - intros i j p q Hij Hp Hq Hnan. by apply (Hmono i j).
  - apply peak_notnan.
Qed.

Lemma running_peak_witness :
  greater_equal (Fin 110) (Fin 90) = true
  /\ less_equal (Fin 100) (Fin 110) = true
  /\ Forall (fun p => isnan p = false) (peak [Fin 100; Fin 110; NInf; Fin 90]).
Proof.
  pose proof (running_peak [Fin 100; Fin 110; NInf; Fin 90])
    as (_ & _ & Habove & Hmono & Hnan).
  split; [|split].
  - apply (Habove 3%nat (Fin 90) (Fin 110)); reflexivity.
  - apply (Hmono 0%nat 3%nat (Fin 100) (Fin 110));
      [lia | reflexivity | reflexivity | reflexivity].
  - apply Hnan. repeat constructor.
Defined.

(** C2 fails on an array that holds a NaN: on [equity = [1, NaN]] the peak
    is [[1, NaN]]; at index 1 the peak is not at least the equity, and the
    peak at index 0 is not at most the peak at index 1, every comparison
    with a NaN being false.  The binary64 computation agrees. *)
Lemma running_peak_broken_by_nan :
  peak [Fin 1; NaN] = [Fin 1; NaN]
  /\ ~ (forall (i : nat) (e p : num),
          [Fin 1; NaN] !! i = Some e -> peak [Fin 1; NaN] !! i = Some p ->
          greater_equal p e = true)
  /\ ~ (forall (i j : nat) (p q : num),
          (i <= j)%nat ->
          peak [Fin 1; NaN] !! i = Some p -> peak [Fin 1; NaN] !! j = Some q ->
          less_equal p q = true)
  /\ (exists p : float,
        peak [1%float; PrimFloat.nan] !! 1%nat = Some p
        /\ greater_equal p PrimFloat.nan = false
        /\ less_equal 1%float p = false).
Proof.
  split; [reflexivity|]. split; [|split].
  - intros Hall. specialize (Hall 1%nat NaN NaN eq_refl eq_refl). discriminate.
  - intros Hall.
    specialize (Hall 0%nat 1%nat (Fin 1) NaN (Nat.le_succ_diag_r 0) eq_refl eq_refl).
    discriminate.
  - eexists. split; [vm_compute; reflexivity|].
    split; vm_compute; reflexivity.
Qed.

(** C1, as the code has it.  For every array [equity] of floats, at every
    index where the running peak is a positive number the drawdown
    percentage is at most zero (it is minus infinity where the equity is
    minus infinity or the result overflows), and it is zero exactly when the
    equity equals the peak there. *)
Theorem drawdown_pct_nonpositive (equity : list num) (i : nat) (e : num) (p : Q) :
  equity !! i = Some e ->
  peak equity !! i = Some (Fin p) ->
  0 < p ->
  exists d : num,
    drawdown_pct equity !! i = Some d
    /\ less_equal d (of_int 0) = true
    /\ (equal d (of_int 0) = true <-> equal e (Fin p) = true).
Proof.
  intros He Hp Hpos.
  assert (Hle : num_less_equal e (Fin p) = true).
  { by apply (proj1 (peak_bounds equity) i). }
  eexists. split; [by apply drawdown_pct_lookup|].
  rewrite sign_less_equal_zero, sign_equal_zero.
  rewrite sign_times_hundred, sign_divide_positive by done.
  destruct (sign_subtract_below e p Hle) as [(-> & -> & _) | (-> & -> & _)].
  - split; [by left | done].
  - split; [by right | done].
Qed.

Lemma drawdown_pct_nonpositive_witness :
  exists d : num,
    drawdown_pct [Fin 100; Fin 110; Fin 90] !! 2%nat = Some d
    /\ less_equal d (of_int 0) = true
    /\ (equal d (of_int 0) = true <-> equal (Fin 90) (Fin 110) = true).
Proof.
  apply (drawdown_pct_nonpositive [Fin 100; Fin 110; Fin 90] 2 (Fin 90) 110);
    [reflexivity | reflexivity | reflexivity].
Defined.

(** C1 fails below a negative peak: on [E = [-1, -2]] the peak stays at
    [-1], the drawdown at index 1 is [-1], and the percentage there is
    [+100], in exact arithmetic and in binary64 alike. *)
Lemma drawdown_pct_positive_below_negative_peak :
  peak (Fin <$> [-1; -2]) = [Fin (-1); Fin (-1)]
  /\ drawdown_pct (Fin <$> [-1; -2]) = [Fin 0; Fin 100]
  /\ drawdown_pct [(-1)%float; (-2)%float] !! 1%nat = Some 100%float
  /\ ~ (forall (i : nat) (d : num),
          drawdown_pct (Fin <$> [-1; -2]) !! i = Some d ->
          less_equal d (of_int 0) = true).
Proof.
  conjuncts; try evaluated.
  intros Hall. specialize (Hall 1%nat (Fin 100)). vm_compute in Hall.
  specialize (Hall eq_refl). discriminate.
Qed.

(** The percentage need not be finite over a positive peak: on the binary64
    array [[1, -2^1020]] the multiplication by 100 overflows to minus
    infinity. *)
Lemma drawdown_pct_overflows :
  drawdown_pct [1%float; (-0x1p+1020)%float] = [0%float; neg_infinity]
  /\ drawdown_pct [Fin 1; Fin (- inject_Z (2 ^ 1020))] = [Fin 0; NInf].
Proof. split; vm_compute; reflexivity. Qed.

(** On an array of dtype int64 the subtraction wraps around: on
    [[1, -2^63]] the peak stays at [1], the drawdown at index 1 is
    [2^63 - 1], and the percentage there is positive. *)
Lemma int64_drawdown_wraps :
  Int64Array.peak [1; - 2 ^ 63]%Z = [1; 1]%Z
  /\ Int64Array.drawdown [1; - 2 ^ 63]%Z = [0; 2 ^ 63 - 1]%Z
  /\ (exists d : float,
        Int64Array.drawdown_pct [1; - 2 ^ 63]%Z !! 1%nat = Some d
        /\ less (of_int 0) d = true)
  /\ (exists d : num,
        Int64Array.drawdown_pct [1; - 2 ^ 63]%Z !! 1%nat = Some d
        /\ less (of_int 0) d = true).
Proof.
  split; [vm_compute; reflexivity|]. split; [vm_compute; reflexivity|].
  split; eexists; (split; [vm_compute; reflexivity|]); vm_compute; reflexivity.
Qed.

(** C3.  The two scenarios.  On [E = [100, 110, 90, 95, 120]]:
    [P = [100, 110, 110, 110, 120]], [D = [0, 0, -20, -15, 0]] and
    [D% = [0, 0, -200/11, -150/11, 0]], which is
    [[0, 0, -18.18, -13.64, 0]] to two decimal places; on [E = [50]]:
    [P = [50]], [D = [0]], [D% = [0]].  The same holds of the binary64
    computation. *)
Theorem drawdown_scenarios :
  (peak (Fin <$> [100; 110; 90; 95; 120]) = Fin <$> [100; 110; 110; 110; 120]
   /\ drawdown (Fin <$> [100; 110; 90; 95; 120]) = Fin <$> [0; 0; -20; -15; 0]
   /\ drawdown_pct (Fin <$> [100; 110; 90; 95; 120])
      = Fin <$> [0; 0; -200 # 11; -150 # 11; 0]
   /\ Forall2 (fun x cents => agrees_2dp x cents = true)
        (drawdown_pct (Fin <$> [100; 110; 90; 95; 120]))
        [0; 0; -1818; -1364; 0]%Z
   /\ peak [Fin 50] = [Fin 50]
   /\ drawdown [Fin 50] = [Fin 0]
   /\ drawdown_pct [Fin 50] = [Fin 0])
  /\
  (peak [100; 110; 90; 95; 120]%float = [100; 110; 110; 110; 120]%float
   /\ drawdown [100; 110; 90; 95; 120]%float = [0; 0; -20; -15; 0]%float
   /\ Forall2 (fun x cents => agrees_2dp x cents = true)
        (drawdown_pct [100; 110; 90; 95; 120]%float)
        [0; 0; -1818; -1364; 0]%Z
   /\ peak [50%float] = [50%float]
   /\ drawdown [50%float] = [0%float]
   /\ drawdown_pct [50%float] = [0%float]).
Proof.
  conjuncts;
    lazymatch goal with
    | |- Forall2 _ _ _ => repeat (constructor; [evaluated|]); constructor
    | |- _ => evaluated
    end.
Qed.

End DrawdownSpec.

(** ** The charts of util.py *)

Module UtilFacts.
Import Numpy Drawdown Python Matplotlib Util PeakFacts DrawdownFacts.
Local Open Scope script_scope.

Section Charts.
Context {X A : Type} {dtype : Dtype A} {lib : Layout X A}.

(** The calls [plot_equity_dd] makes up to the scale of the left axis when
    its data fit, on the axes [ax1] and [ax2] it was given by the library. *)
Definition equity_dd_drawn (time : list X) (equity : list A) (log : bool)
    (ax1 ax2 : nat) : list (event X A) :=
  [ Subplots 1 1 false (16, 6)%nat;
    FillBetween ax1 time (Array equity) (Scalar (of_int 0)) None
      {| color := Some "slateblue"; alpha := Some (3 # 10); linewidth := None;
         linestyle := None; label := None |};
    Plot (Ax ax1) time equity
      {| color := Some "black"; alpha := None; linewidth := Some (12 # 10);
         linestyle := None; label := Some "Equity" |};
    Twinx ax1;
    FillBetween ax2 time (Scalar (of_int 0)) (Array (drawdown_pct equity))
      (Some (elementwise_scalar less (drawdown_pct equity) (of_int 0)))
      {| color := Some "red"; alpha := Some (5 # 10); linewidth := None;
         linestyle := None; label := Some "Drawdown (%)" |};
    SetYlabel (Ax ax1) "Equity"
      {| color := Some "black"; alpha := None; linewidth := None;
         linestyle := None; label := None |};
    SetYlabel (Ax ax2) "Drawdown (%)"
      {| color := Some "black"; alpha := None; linewidth := None;
         linestyle := None; label := None |};
    TickParams ax1 "y" (Some "black");
    TickParams ax2 "y" (Some "black");
    SetTitle Current "Equity Curve with Drawdown (%) on Right Axis";
    Grid (Ax ax1) None no_style ]
  ++ (if log then [SetYscale (Ax ax1) "log"] else []).

(** The same with the limit of the left axis, when one is set. *)
Definition equity_dd_limited (time : list X) (equity : list A) (y_lim : A)
    (log : bool) (ax1 ax2 : nat) : list (event X A) :=
  equity_dd_drawn time equity log ax1 ax2
  ++ (if truth y_lim then [SetYlim ax1 y_lim] else []).

(** All the calls of a [plot_equity_dd] that returns. *)
Definition equity_dd_events (time : list X) (equity : list A) (y_lim : A)
    (log : bool) (ax1 ax2 : nat) : list (event X A) :=
  equity_dd_limited time equity y_lim log ax1 ax2 ++ [TightLayout; Show].

(** What [plot_equity_dd] does on data of one length: it stops at
    [set_ylim] on a limit that is passed and not finite, it stops at
    [tight_layout] when the library cannot lay the figure out, and it
    returns otherwise. *)
Definition equity_dd_outcome (time : list X) (equity : list A) (y_lim : A)
    (log_ : bool) (w : world X A) : world X A * (exn + unit) :=
  let ax1 := axes_count w in
  let ax2 := S (axes_count w) in
  let after (evs : list (event X A)) :=
    {| files := files w; log := log w ++ evs; axes_count := S (S (axes_count w)) |} in
  if truth y_lim && negb (isfinite y_lim)
  then (after (equity_dd_drawn time equity log_ ax1 ax2),
        inl (ValueError "Axis limits cannot be NaN or Inf"))
  else
    match layout_error (log w ++ equity_dd_limited time equity y_lim log_ ax1 ax2) with
    | Some msg =>
        (after (equity_dd_limited time equity y_lim log_ ax1 ax2),
         inl (ValueError msg))
    | None => (after (equity_dd_events time equity y_lim log_ ax1 ax2), inr tt)
    end.

(** The texts a chart carries: axis labels and titles. *)
Definition texts (evs : list (event X A)) : list (target * string) :=
  omap (fun ev =>
          match ev with
          | SetXlabel on text | SetYlabel on text _ | SetTitle on text =>
              Some (on, text)
          | Suptitle text => Some (Current, text)
          | _ => None
          end) evs.

Lemma broadcastable_equal (n m : nat) (between : list (option nat)) :
  n = m ->
  Forall (fun s => s = None) between ->
  broadcastable (Some n :: between ++ [Some m]) None = true.
Proof.
  intros <- Hb.
  assert (Hskip : forall c, broadcastable (between ++ [Some n]) c
                            = broadcastable [Some n] c).
  { intros c. induction Hb as [| s between -> _ IH]; [done | exact IH]. }
  destruct n as [| [| n]]; cbn [broadcastable]; rewrite Hskip; simpl;
    by rewrite ?Nat.eqb_refl.
Qed.

Lemma broadcastable_equal_scalar (n m : nat) :
  n = m -> broadcastable [Some n; Some m; None] None = true.
Proof.
  intros <-. destruct n as [| [| n]]; simpl; by rewrite ?Nat.eqb_refl.
Qed.

Lemma plot_fits (on : target) (x : list X) (y : list A) (kw : style) :
  length x = length y -> plot on x y kw = emit (Plot on x y kw).
Proof. intros Hlen. unfold plot. by rewrite Hlen, Nat.eqb_refl. Qed.

Lemma plot_misfit (on : target) (x : list X) (y : list A) (kw : style) :
  length x <> length y ->
  plot on x y kw = raise (ValueError "x and y must have same first dimension").
Proof.
  intros Hlen. unfold plot. by apply Nat.eqb_neq in Hlen as ->.
Qed.

(** [plot_equity_dd] on data of one length. *)
Lemma plot_equity_dd_run (time : list X) (equity : list A)
    (xlabel ylabel title : string) (y_lim : A) (log_ : bool) (w : world X A) :
  length time = length equity ->
  plot_equity_dd time equity xlabel ylabel title y_lim log_ w
  = equity_dd_outcome time equity y_lim log_ w.
Proof.
  intros Hlen.
  assert (Hb1 : broadcastable [Some (length time); Some (length equity); None] None
                = true) by (by apply broadcastable_equal_scalar).
  assert (Hb2 : broadcastable
                  [Some (length time); None; Some (length (drawdown_pct equity))]
                  None = true).
  { apply (broadcastable_equal _ _ [None]);
      [by rewrite drawdown_pct_length | by repeat constructor]. }
  assert (Hwh : Nat.eqb (length (elementwise_scalar less (drawdown_pct equity)
                                   (of_int 0))) (length time) = true).
  { unfold elementwise_scalar. rewrite length_fmap, drawdown_pct_length, Hlen.
    apply Nat.eqb_refl. }
  assert (Hxy : Nat.eqb (length time) (length equity) = true)
    by (rewrite Hlen; apply Nat.eqb_refl).
  unfold equity_dd_outcome, equity_dd_events, equity_dd_limited, equity_dd_drawn.
  unfold plot_equity_dd, bind, plt_subplots_single, ax_fill_between, plot,
    ax_twinx, ax_set_ylabel, ax_tick_params, plt_title, grid, set_yscale,
    ax_set_ylim, plt_tight_layout, plt_show, when, emit, ret, raise, new_axes,
    from_option, operand_length.
  change (elementwise_scalar multiply
            (elementwise true_divide (elementwise subtract equity (peak equity))
               (peak equity)) (of_int 100)) with (drawdown_pct equity).
  cbn -[broadcastable drawdown_pct elementwise_scalar Nat.eqb length].
  rewrite Hb1.
  cbn -[broadcastable drawdown_pct elementwise_scalar Nat.eqb length].
  rewrite Hxy.
  cbn -[broadcastable drawdown_pct elementwise_scalar Nat.eqb length].
  rewrite Hwh.
  cbn -[broadcastable drawdown_pct elementwise_scalar Nat.eqb length].
  rewrite Hb2.
  destruct log_, (truth y_lim), (isfinite y_lim);
    cbn -[drawdown_pct elementwise_scalar]; rewrite <- ?app_assoc;
    cbn -[drawdown_pct elementwise_scalar]; try reflexivity;
    match goal with
    | |- context [layout_error ?l] => destruct (layout_error l)
    end;
    cbn -[drawdown_pct elementwise_scalar]; rewrite <- ?app_assoc; reflexivity.
Qed.

(** [plot_equity_dd] on data of different lengths raises at a drawing
    call. *)
Lemma plot_equity_dd_raises (time : list X) (equity : list A)
    (xlabel ylabel title : string) (y_lim : A) (log_ : bool) (w : world X A) :
  length time <> length equity ->
  exists (w' : world X A) (e : exn),
    plot_equity_dd time equity xlabel ylabel title y_lim log_ w = (w', inl e).
Proof.
  intros Hlen. apply Nat.eqb_neq in Hlen.
  unfold plot_equity_dd, bind, plt_subplots_single, ax_fill_between, plot,
    emit, new_axes, raise, from_option, operand_length.
  cbn -[broadcastable Nat.eqb length].
  destruct (broadcastable _ None); cbn -[Nat.eqb length]; [|eauto].
  rewrite Hlen. eauto.
Qed.

(** The percentages are handed to [fill_between] as computed. *)
Lemma percentages_drawn (time : list X) (equity : list A) (y_lim : A)
    (log_ : bool) (w : world X A) :
  FillBetween (S (axes_count w)) time (Scalar (of_int 0))
    (Array (drawdown_pct equity))
    (Some (elementwise_scalar less (drawdown_pct equity) (of_int 0)))
    {| color := Some "red"; alpha := Some (5 # 10); linewidth := None;
       linestyle := None; label := Some "Drawdown (%)" |}
  ∈ log (equity_dd_outcome time equity y_lim log_ w).1.
Proof.
  assert (Hdrawn : forall rest : list (event X A),
    FillBetween (S (axes_count w)) time (Scalar (of_int 0))
      (Array (drawdown_pct equity))
      (Some (elementwise_scalar less (drawdown_pct equity) (of_int 0)))
      {| color := Some "red"; alpha := Some (5 # 10); linewidth := None;
         linestyle := None; label := Some "Drawdown (%)" |}
    ∈ log w ++ (equity_dd_drawn time equity log_ (axes_count w)
                  (S (axes_count w)) ++ rest)).
  { intros rest. apply elem_of_app. right. apply elem_of_app. left.
    unfold equity_dd_drawn. apply elem_of_app. left. do 4 right. left. }
  unfold equity_dd_outcome, equity_dd_events, equity_dd_limited.
  destruct (truth y_lim && negb (isfinite y_lim)); cbn [fst log].
  - rewrite <- (app_nil_r (equity_dd_drawn _ _ _ _ _)). apply Hdrawn.
  - destruct (layout_error _); cbn [fst log]; rewrite <- ?app_assoc; apply Hdrawn.
Qed.

(** [plot_equity] on data of different lengths: the figure is created, the
    plot call raises, and nothing else happens. *)
Lemma plot_equity_misfit (x : list X) (y : list A)
    (xlabel ylabel title : string) (log_ : bool) (w : world X A) :
  length x <> length y ->
  plot_equity x y xlabel ylabel title log_ w
  = ({| files := files w; log := log w ++ [Figure (12, 6)%nat];
        axes_count := axes_count w |},
     inl (ValueError "x and y must have same first dimension")).
Proof.
  intros Hlen. unfold plot_equity, bind. by rewrite (plot_misfit _ _ _ _ Hlen).
Qed.
End Charts.

End UtilFacts.

Module UtilSpec.
Import Numpy Drawdown Python Matplotlib Util PeakFacts DrawdownFacts UtilFacts.

(** C4.  Nothing guards the division by the peak.  For every array of
    floats, where the running peak is zero the drawdown percentage is not
    finite; whatever the percentages are, [plot_equity_dd] hands them to
    [fill_between] whenever [time] and [equity] have one length; and on
    [E = [0]] the percentage is a NaN, in exact arithmetic and in binary64
    alike, and is drawn. *)
Theorem drawdown_pct_unguarded :
  (forall (equity : list num) (i : nat) (p : Q),
     peak equity !! i = Some (Fin p) -> p == 0 ->
     exists d : num,
       drawdown_pct equity !! i = Some d /\ isfinite d = false)
  /\ (forall (lib : Layout nat num) (time : list nat) (equity : list num)
        (xlabel ylabel title : string) (y_lim : num) (log_ : bool)
        (w : world nat num),
        length time = length equity ->
        FillBetween (S (axes_count w)) time (Scalar (of_int 0))
          (Array (drawdown_pct equity))
          (Some (elementwise_scalar less (drawdown_pct equity) (of_int 0)))
          {| color := Some "red"; alpha := Some (5 # 10); linewidth := None;
             linestyle := None; label := Some "Drawdown (%)" |}
        ∈ log (plot_equity_dd time equity xlabel ylabel title y_lim log_ w).1)
  /\ (exists (E : list Q) (i : nat) (p : Q) (d : num),
        peak (Fin <$> E) !! i = Some (Fin p) /\ p <= 0
        /\ drawdown_pct (Fin <$> E) !! i = Some d /\ isfinite d = false
        /\ forall lib : Layout nat num,
             FillBetween 1 [0%nat] (Scalar (Fin 0)) (Array [d]) (Some [false])
               {| color := Some "red"; alpha := Some (5 # 10); linewidth := None;
                  linestyle := None; label := Some "Drawdown (%)" |}
             ∈ log (run (plot_equity_dd [0%nat] (Fin <$> E) "t" "USD" "equity"
                           (Fin 0) false) ∅).1)
  /\ isfinite <$> drawdown_pct [0%float] = [false].
Proof.
  split; [|split; [|split]].
  - intros equity i p Hp Hz.
    destruct (equity_at_peak equity i (Fin p) Hp) as [e He].
    eexists. split; [by apply (drawdown_pct_lookup _ i e (Fin p))|].
    by apply percent_zero_peak.
  - intros lib time equity xlabel ylabel title y_lim log_ w Hlen.
    rewrite plot_equity_dd_run by done. apply percentages_drawn.
  - exists [0], 0%nat, 0, NaN. split; [done|]. split; [done|].
    split; [vm_compute; reflexivity|]. split; [done|].
    intros lib. unfold run.
    rewrite plot_equity_dd_run by done.
    pose proof (percentages_drawn [0%nat] [Fin 0] (Fin 0) false
                  {| files := ∅; log := []; axes_count := 0 |}) as Hdrawn.
    assert (Hd : drawdown_pct [Fin 0] = [NaN]) by (vm_compute; reflexivity).
    rewrite Hd in Hdrawn. exact Hdrawn.
  - vm_compute. reflexivity.
Qed.

Lemma drawdown_pct_unguarded_witness :
  (exists d : num,
     drawdown_pct [Fin 0; NInf] !! 1%nat = Some d /\ isfinite d = false)
  /\ FillBetween 1 [1; 2]%nat (Scalar (of_int 0))
       (Array (drawdown_pct [Fin 0; NInf]))
       (Some (elementwise_scalar less (drawdown_pct [Fin 0; NInf]) (of_int 0)))
       {| color := Some "red"; alpha := Some (5 # 10); linewidth := None;
          linestyle := None; label := Some "Drawdown (%)" |}
     ∈ log (plot_equity_dd (lib:=rejecting) [1; 2]%nat [Fin 0; NInf] "t" "USD"
              "equity" NaN false
              {| files := ∅; log := []; axes_count := 0 |}).1.
Proof.
  destruct drawdown_pct_unguarded as (Hzero & Hdrawn & _).
  split.
  - apply (Hzero [Fin 0; NInf] 1%nat 0); reflexivity.
  - apply (Hdrawn rejecting [1; 2]%nat [Fin 0; NInf] "t" "USD" "equity" NaN false
             {| files := ∅; log := []; axes_count := 0 |}).
    reflexivity.
Defined.

(** C7.  For every pair of sequences of different lengths, [plot_equity]
    raises the library's length-mismatch error at its plot call: the figure
    has been created, nothing has been drawn on it, and [plt.show] is not
    reached. *)
Theorem plot_equity_length_mismatch {X A : Type} {lib : Layout X A}
    (x : list X) (y : list A)
    (xlabel ylabel title : string) (log_ : bool) (w : world X A) :
  length x <> length y ->
  exists w' : world X A,
    plot_equity x y xlabel ylabel title log_ w
    = (w', inl (ValueError "x and y must have same first dimension"))
    /\ log w' = log w ++ [Figure (12, 6)%nat]
    /\ (Show ∈ log w' -> Show ∈ log w)
    /\ files w' = files w.
Proof.
  intros Hlen. eexists. split; [by apply plot_equity_misfit|].
  cbn. split; [done|]. split; [|done].
  intros Hin. apply elem_of_app in Hin as [Hin | Hin]; [done|].
  apply list_elem_of_singleton in Hin. discriminate.
Qed.

Lemma plot_equity_length_mismatch_witness :
  exists w' : world nat Z,
    plot_equity (lib:=accepting) [1; 2; 3; 4; 5]%nat [10; 11; 12; 13]%Z "trade"
      "USD" "equity over time" false {| files := ∅; log := []; axes_count := 0 |}
    = (w', inl (ValueError "x and y must have same first dimension"))
    /\ log w' = [] ++ [Figure (12, 6)%nat]
    /\ (Show ∈ log w' -> Show ∈ ([] : list (event nat Z)))
    /\ files w' = ∅.
Proof.
  apply (plot_equity_length_mismatch (lib:=accepting) [1; 2; 3; 4; 5]%nat
           [10; 11; 12; 13]%Z "trade" "USD" "equity over time" false
           {| files := ∅; log := []; axes_count := 0 |}).
  simpl. lia.
Defined.

(** C10.  What [plot_equity_dd] does is the same for any two calls that
    differ only in [xlabel], [ylabel] and [title]; and whenever it returns,
    the texts of the chart are the axis labels "Equity" and "Drawdown (%)"
    and the title "Equity Curve with Drawdown (%) on Right Axis", in that
    order, and no other. *)
Theorem plot_equity_dd_ignores_labels {X A : Type} `{Dtype A} {lib : Layout X A}
    (time : list X)
    (equity : list A) (xlabel ylabel title xlabel' ylabel' title' : string)
    (y_lim : A) (log_ : bool) (w : world X A) :
  plot_equity_dd time equity xlabel ylabel title y_lim log_ w
  = plot_equity_dd time equity xlabel' ylabel' title' y_lim log_ w
  /\ (forall w' : world X A,
        plot_equity_dd time equity xlabel ylabel title y_lim log_ w
        = (w', inr tt) ->
        exists evs : list (event X A),
          log w' = log w ++ evs
          /\ texts evs
             = [ (Ax (axes_count w), "Equity");
                 (Ax (S (axes_count w)), "Drawdown (%)");
                 (Current, "Equity Curve with Drawdown (%) on Right Axis") ]).
Proof.
  split; [reflexivity|].
  intros w' Hrun.
  destruct (decide (length time = length equity)) as [Hlen | Hlen].
  - rewrite (plot_equity_dd_run _ _ _ _ _ _ _ _ Hlen) in Hrun.
    unfold equity_dd_outcome in Hrun.
    destruct (truth y_lim && negb (isfinite y_lim)); [discriminate|].
    destruct (layout_error _); [discriminate|].
    injection Hrun as <-. eexists. split; [reflexivity|].
    unfold equity_dd_events, equity_dd_limited, equity_dd_drawn.
    by destruct log_, (truth y_lim).
  - destruct (plot_equity_dd_raises time equity xlabel ylabel title y_lim log_ w
                Hlen) as (w'' & e & Hraise).
    rewrite Hraise in Hrun. discriminate.
Qed.

Lemma plot_equity_dd_ignores_labels_witness :
  exists evs : list (event nat num),
    log (plot_equity_dd (lib:=accepting) [1; 2]%nat [Fin 100; Fin 90] "trade"
           "USD" "equity over time" (Fin 0) false
           {| files := ∅; log := []; axes_count := 0 |}).1
    = [] ++ evs
    /\ texts evs
       = [ (Ax 0, "Equity"); (Ax 1, "Drawdown (%)");
           (Current, "Equity Curve with Drawdown (%) on Right Axis") ].
Proof.
  destruct (plot_equity_dd_ignores_labels (lib:=accepting) [1; 2]%nat
              [Fin 100; Fin 90]
              "trade" "USD" "equity over time" "x" "y" "title" (Fin 0) false
              {| files := ∅; log := []; axes_count := 0 |}) as [_ Htexts].
  apply (Htexts
           (plot_equity_dd (lib:=accepting) [1; 2]%nat [Fin 100; Fin 90] "trade"
              "USD" "equity over time" (Fin 0) false
              {| files := ∅; log := []; axes_count := 0 |}).1).
  vm_compute. reflexivity.
Defined.

End UtilSpec.

(** ** The computation on array objects *)

Module ObjectsSpec.
Import Numpy Drawdown Objects.

Section Store.
Context {A : Type} `{Dtype A}.

Lemma load_old (h ext : store) (r : nat) (a : list A) :
  h !! r = Some a -> load r (h ++ ext) = Some (h ++ ext, a).
Proof.
  intros Hr. unfold load, store in *.
  by rewrite (lookup_app_l_Some _ _ _ _ Hr).
Qed.

Lemma load_new (h ext : store) (n : nat) (a : list A) :
  ext !! n = Some a -> load (length h + n) (h ++ ext) = Some (h ++ ext, a).
Proof.
  intros Hn. unfold load, store in *. rewrite lookup_app_r by lia.
  replace (length h + n - length h)%nat with n by lia. by rewrite Hn.
Qed.

Lemma alloc_after (h ext : store) (a : list A) :
  alloc a (h ++ ext) = Some (h ++ (ext ++ [a]), (length h + length ext)%nat).
Proof. unfold alloc. by rewrite length_app, app_assoc. Qed.

(** One run of lines 6 to 8 on the array at [equity]: four arrays are
    allocated behind the store, which is otherwise left as it was, and the
    names bound are the first, second and fourth of them. *)
Lemma drawdown_computation_run (h : store) (equity : nat) (E : list A) :
  h !! equity = Some E ->
  drawdown_computation equity h
  = Some (h ++ [ peak E; drawdown E;
                 elementwise true_divide (drawdown E) (peak E);
                 drawdown_pct E ],
          (length h, S (length h), S (S (S (length h))))).
Proof.
  intros HE.
  unfold drawdown_computation, np_maximum_accumulate, np_subtract,
    np_true_divide, np_multiply_scalar, then_.
  rewrite <- (app_nil_r h) at 1.
  rewrite (load_old h [] _ _ HE). cbn [mbind option_bind].
  rewrite alloc_after. cbn [mbind option_bind app length].
  rewrite (load_old h _ _ _ HE). cbn [mbind option_bind].
  rewrite (load_new h _ 0 (peak E)) by done. cbn [mbind option_bind].
  rewrite alloc_after. cbn [mbind option_bind app length].
  rewrite (load_new h _ 1 (drawdown E)) by done. cbn [mbind option_bind].
  rewrite (load_new h _ 0 (peak E)) by done. cbn [mbind option_bind].
  rewrite alloc_after. cbn [mbind option_bind app length].
  rewrite (load_new h _ 2 (elementwise true_divide (drawdown E) (peak E)))
    by done.
  cbn [mbind option_bind].
  rewrite alloc_after. cbn [mbind option_bind app length].
  repeat f_equal; lia.
Qed.

(** C8.  The drawdown computation reads the array bound to [equity] and
    nothing else, and it changes no array there is.  So two runs on arrays
    of the same content, in whatever stores, bind [peak] and [drawdown_pct]
    to arrays of the same content, [peak equity] and [drawdown_pct equity];
    and so does a second run on the same array after the first, the array
    being still what it was. *)
Theorem drawdown_computation_deterministic (h h' : store) (equity equity' : nat)
    (E : list A) :
  h !! equity = Some E ->
  h' !! equity' = Some E ->
  exists (h1 h1' h2 : store) (p d q p' d' q' p2 d2 q2 : nat),
    drawdown_computation equity h = Some (h1, (p, d, q))
    /\ drawdown_computation equity' h' = Some (h1', (p', d', q'))
    /\ drawdown_computation equity h1 = Some (h2, (p2, d2, q2))
    /\ h1 !! p = Some (peak E) /\ h1' !! p' = Some (peak E)
    /\ h1 !! q = Some (drawdown_pct E) /\ h1' !! q' = Some (drawdown_pct E)
    /\ h1 !! equity = Some E
    /\ h2 !! p = Some (peak E) /\ h2 !! p2 = Some (peak E)
    /\ h2 !! q = Some (drawdown_pct E) /\ h2 !! q2 = Some (drawdown_pct E)
    /\ h2 !! equity = Some E.
Proof.
  intros HE HE'. unfold store in *.
  pose proof (drawdown_computation_run h equity E HE) as Hrun.
  pose proof (drawdown_computation_run h' equity' E HE') as Hrun'.
  set (new := [peak E; drawdown E;
               elementwise true_divide (drawdown E) (peak E);
               drawdown_pct E]) in *.
  assert (HE1 : (h ++ new) !! equity = Some E) by (by apply lookup_app_l_Some).
  pose proof (drawdown_computation_run (h ++ new) equity E HE1) as Hrun2.
  fold new in Hrun2.
  assert (Hat : forall (g : store) (n : nat) (a : list A),
            new !! n = Some a -> (g ++ new) !! (length g + n)%nat = Some a).
  { intros g n a Hn. rewrite lookup_app_r by lia.
    by replace (length g + n - length g)%nat with n by lia. }
  do 12 eexists.
  split; [exact Hrun|]. split; [exact Hrun'|]. split; [exact Hrun2|].
  repeat split.
  - rewrite <- (Nat.add_0_r (length h)). by apply Hat.
  - rewrite <- (Nat.add_0_r (length h')). by apply Hat.
  - replace (S (S (S (length h)))) with (length h + 3)%nat by lia. by apply Hat.
  - replace (S (S (S (length h')))) with (length h' + 3)%nat by lia.
    by apply Hat.
  - exact HE1.
  - apply lookup_app_l_Some. rewrite <- (Nat.add_0_r (length h)). by apply Hat.
  - rewrite <- (Nat.add_0_r (length (h ++ new))). by apply Hat.
  - apply lookup_app_l_Some.
    replace (S (S (S (length h)))) with (length h + 3)%nat by lia. by apply Hat.
  - replace (S (S (S (length (h ++ new)))))
      with (length (h ++ new) + 3)%nat by lia.
    by apply Hat.
  - by apply lookup_app_l_Some.
Qed.
End Store.

Lemma drawdown_computation_deterministic_witness :
  exists (h1 h1' h2 : store (A:=num)) (p d q p' d' q' p2 d2 q2 : nat),
    drawdown_computation 0 [[Fin 100; Fin 90]] = Some (h1, (p, d, q))
    /\ drawdown_computation 1 [[]; [Fin 100; Fin 90]] = Some (h1', (p', d', q'))
    /\ drawdown_computation 0 h1 = Some (h2, (p2, d2, q2))
    /\ h1 !! p = Some (peak [Fin 100; Fin 90])
    /\ h1' !! p' = Some (peak [Fin 100; Fin 90])
    /\ h1 !! q = Some (drawdown_pct [Fin 100; Fin 90])
    /\ h1' !! q' = Some (drawdown_pct [Fin 100; Fin 90])
    /\ h1 !! 0%nat = Some [Fin 100; Fin 90]
    /\ h2 !! p = Some (peak [Fin 100; Fin 90])
    /\ h2 !! p2 = Some (peak [Fin 100; Fin 90])
    /\ h2 !! q = Some (drawdown_pct [Fin 100; Fin 90])
    /\ h2 !! q2 = Some (drawdown_pct [Fin 100; Fin 90])
    /\ h2 !! 0%nat = Some [Fin 100; Fin 90].
Proof.
  apply (drawdown_computation_deterministic
           [[Fin 100; Fin 90]] [[]; [Fin 100; Fin 90]] 0 1 [Fin 100; Fin 90]);
    reflexivity.
Defined.

End ObjectsSpec.

(** ** The recorder script *)

(** ** The recorder script *)

Module RecorderFacts.
Import Pandas Python Matplotlib PlotRecorder.
Local Open Scope script_scope.

(** The startup checks of lines 1 to 22 let the script through. *)
Definition startup_ok (py : interpreter) : Prop :=
  importable py "pandas" = true
  /\ importable py "matplotlib" = true
  /\ version_lt (version_info py) (3, 7)%nat = false.

(** An interpreter that passes the version check of lines 6 to 8 also
    parses the file. *)
Lemma version_parses (v : nat * nat) :
  version_lt v (3, 7)%nat = false -> version_lt v (3, 6)%nat = false.
Proof.
  destruct v as [major minor]. unfold version_lt. cbn [fst snd].
  rewrite !orb_false_iff, !andb_false_iff, !Nat.ltb_ge, !Nat.eqb_neq. lia.
Qed.

(** What the script does up to the layout of the figure when nothing is
    missing: the file read, then the chart, with the converted timestamps
    against the three columns. *)
Definition recorder_drawn (csv_filename asset_id : string)
    (timestamp equity mid_price position : list cell) : list (event cell cell) :=
  [ ReadCsv csv_filename;
    Subplots 2 1 true (14, 8)%nat;
    Plot (Ax 0) timestamp equity (line_style None None "Equity");
    SetYlabel (Ax 0) "Equity" no_style;
    TickParams 0 "y" None;
    Legend (Ax 0) (Some "upper left");
    Grid (Ax 0) None no_style;
    Twinx 0;
    Plot (Ax 2) timestamp mid_price
      (line_style (Some "tab:gray") (Some (3 # 10)) "Price");
    SetYlabel (Ax 2) "Price" no_style;
    TickParams 2 "y" None;
    Legend (Ax 2) (Some "upper right");
    Plot (Ax 1) timestamp position (line_style None None "Position");
    SetYlabel (Ax 1) "Position" no_style;
    TickParams 1 "y" None;
    Legend (Ax 1) (Some "upper left");
    Grid (Ax 1) None no_style;
    Twinx 1;
    Plot (Ax 3) timestamp mid_price
      (line_style (Some "tab:gray") (Some (3 # 10)) "Price");
    SetYlabel (Ax 3) "Price" no_style;
    TickParams 3 "y" None;
    Legend (Ax 3) (Some "upper right");
    SetXlabel Current "Timestamp";
    Suptitle ("Asset " ++ asset_id ++ " Equity and Position Over Time") ].

(** What the script does on a run that reaches its end. *)
Definition recorder_events (csv_filename asset_id : string)
    (timestamp equity mid_price position : list cell) : list (event cell cell) :=
  recorder_drawn csv_filename asset_id timestamp equity mid_price position
  ++ [TightLayout; Show].

(** A computation that leaves the files as they are. *)
Definition keeps_files {R : Type} (m : M (X:=cell) (Y:=cell) R) : Prop :=
  forall w : world cell cell, files (m w).1 = files w.

Create HintDb frame.

Lemma keeps_ret {R : Type} (r : R) : keeps_files (ret r).
Proof. done. Qed.

Lemma keeps_raise {R : Type} (e : exn) : keeps_files (raise (R:=R) e).
Proof. done. Qed.

Lemma keeps_emit (ev : event cell cell) : keeps_files (emit ev).
Proof. done. Qed.

Lemma keeps_new_axes : keeps_files new_axes.
Proof. done. Qed.

Lemma keeps_bind {R T : Type} (m : M R) (k : R -> M T) :
  keeps_files m -> (forall r : R, keeps_files (k r)) -> keeps_files (bind m k).
Proof.
  intros Hm Hk w. unfold bind. specialize (Hm w).
  destruct (m w) as [w' [e | r]]; [done|].
  rewrite Hk. done.
Qed.

Lemma keeps_when (b : bool) (m : M unit) :
  keeps_files m -> keeps_files (when b m).
Proof. intros Hm. destruct b; [done | apply keeps_ret]. Qed.

Lemma keeps_import (py : interpreter) (name : string) :
  keeps_files (import_ py name).
Proof. unfold import_. by destruct (importable py name). Qed.

Lemma keeps_argv_item (py : interpreter) (i : nat) :
  keeps_files (argv_item py i).
Proof. unfold argv_item. by destruct (argv py !! i). Qed.

Lemma keeps_read_csv (path : string) : keeps_files (pd_read_csv path).
Proof.
  intros w. unfold pd_read_csv, bind, emit. cbn.
  by destruct (files w !! path).
Qed.

Lemma keeps_getitem (df : DataFrame) (key : string) :
  keeps_files (getitem df key).
Proof. unfold getitem. by destruct (df !! key). Qed.

Lemma keeps_to_datetime {pd : DatetimeErrors} (conv : cell -> option cell)
    (column : list cell) :
  keeps_files (pd_to_datetime conv column).
Proof. unfold pd_to_datetime. by destruct (mapM conv column). Qed.

Lemma keeps_plot (on : target) (x y : list cell) (kw : style) :
  keeps_files (plot on x y kw).
Proof. unfold plot. by destruct (Nat.eqb (length x) (length y)). Qed.

Lemma keeps_tight_layout {lib : Layout cell cell} : keeps_files plt_tight_layout.
Proof.
  intros w. unfold plt_tight_layout. by destruct (layout_error (log w)).
Qed.

#[local] Hint Resolve keeps_ret keeps_raise keeps_emit keeps_new_axes
  keeps_when keeps_import keeps_argv_item keeps_read_csv keeps_getitem
  keeps_to_datetime keeps_plot keeps_tight_layout : frame.
#[local] Hint Extern 1 (keeps_files (bind _ _)) =>
  apply keeps_bind; [| intros ?] : frame.
#[local] Hint Unfold print sys_exit plt_subplots_column ax_twinx ax_set_ylabel
  ax_tick_params legend grid plt_xlabel plt_suptitle plt_show : frame.

(** The script never changes a file. *)
Lemma plot_recorder_keeps_files {lib : Layout cell cell} {pd : DatetimeErrors}
    (conv : cell -> option cell) (py : interpreter) :
  keeps_files (plot_recorder conv py).
Proof.
  unfold plot_recorder. cbv zeta.
  repeat (apply keeps_bind; [auto 6 with frame | intros ?]).
  auto with frame.
Qed.

End RecorderFacts.

Module RecorderSpec.
Import Pandas Python Matplotlib PlotRecorder RecorderFacts.
Local Open Scope script_scope.

Section Steps.
Context {X Y : Type}.

Lemma run_bind_emit {R : Type} (ev : event X Y) (k : unit -> M R) (w : world X Y) :
  bind (emit ev) k w
  = k tt {| files := files w; log := log w ++ [ev]; axes_count := axes_count w |}.
Proof. reflexivity. Qed.

Lemma run_bind_ret {R T : Type} (r : R) (k : R -> M T) (w : world X Y) :
  bind (ret r) k w = k r w.
Proof. reflexivity. Qed.

Lemma run_bind_raise {R T : Type} (e : exn) (k : R -> M T) (w : world X Y) :
  bind (raise e) k w = (w, inl e).
Proof. reflexivity. Qed.

Lemma run_bind_new_axes {R : Type} (k : nat -> M R) (w : world X Y) :
  bind new_axes k w
  = k (axes_count w)
      {| files := files w; log := log w; axes_count := S (axes_count w) |}.
Proof. reflexivity. Qed.

Lemma run_bind_bind {R T U : Type} (m : M R) (k1 : R -> M T) (k2 : T -> M U)
    (w : world X Y) :
  bind (bind m k1) k2 w = bind m (fun r => bind (k1 r) k2) w.
Proof. unfold bind. by destruct (m w) as [w' [e | r]]. Qed.

Lemma run_bind_tight_layout {lib : Layout X Y} {R : Type} (k : unit -> M R)
    (w : world X Y) :
  bind plt_tight_layout k w
  = match layout_error (log w) with
    | None =>
        k tt {| files := files w; log := log w ++ [TightLayout];
                axes_count := axes_count w |}
    | Some msg => (w, inl (ValueError msg))
    end.
Proof.
  unfold bind, plt_tight_layout. by destruct (layout_error (log w)).
Qed.
End Steps.

Lemma run_bind_read_csv {R : Type} (path : string) (df : DataFrame)
    (k : DataFrame -> M R) (w : world cell cell) :
  files w !! path = Some df ->
  bind (pd_read_csv path) k w
  = k df {| files := files w; log := log w ++ [ReadCsv path];
            axes_count := axes_count w |}.
Proof. intros Hf. unfold pd_read_csv, bind, emit. cbn. by rewrite Hf. Qed.

Lemma run_bind_read_csv_missing {R : Type} (path : string)
    (k : DataFrame -> M R) (w : world cell cell) :
  files w !! path = None ->
  bind (pd_read_csv path) k w
  = ({| files := files w; log := log w ++ [ReadCsv path];
        axes_count := axes_count w |}, inl (FileNotFoundError path)).
Proof. intros Hf. unfold pd_read_csv, bind, emit. cbn. by rewrite Hf. Qed.

Lemma run_bind_plot {R : Type} (on : target) (x y : list cell) (kw : style)
    (k : unit -> M R) (w : world cell cell) :
  length x = length y ->
  bind (plot on x y kw) k w
  = k tt {| files := files w; log := log w ++ [Plot on x y kw];
            axes_count := axes_count w |}.
Proof. intros Hlen. unfold plot. by rewrite Hlen, Nat.eqb_refl. Qed.

Ltac script_simpl :=
  cbv beta; cbn [files log axes_count fst snd when app negb length Nat.eqb].

Ltac script_step :=
  script_simpl;
  first [ rewrite run_bind_emit | rewrite run_bind_ret | rewrite run_bind_raise
        | rewrite run_bind_new_axes | rewrite run_bind_bind ];
  script_simpl.

Ltac open_script :=
  unfold run, plot_recorder; cbv zeta;
  unfold import_, print, sys_exit, argv_item, getitem,
    pd_to_datetime, missing_packages, plt_subplots_column, ax_twinx,
    ax_set_ylabel, ax_tick_params, legend, grid, plt_xlabel, plt_suptitle,
    plt_show.

Section Runs.
Context {lib : Layout cell cell} {pd : DatetimeErrors}.
Variable conv : cell -> option cell.

Lemma short_argv_run (py : interpreter) (fs : gmap string DataFrame) :
  (length (argv py) < 3)%nat ->
  exists (out : list (event cell cell)) (e : exn),
    run (plot_recorder conv py) fs
    = ({| files := fs; log := out; axes_count := 0 |}, inl e)
    /\ exit_status (R:=unit) (inl e) = 1%Z
    /\ Forall (fun ev => exists line, ev = Print line) out
    /\ (startup_ok py ->
        out = [Print "Usage: python plot_recorder.py <csv_filename> <asset_id>"]
        /\ e = SystemExit 1).
Proof.
  intros Hargv. apply Nat.ltb_lt in Hargv.
  destruct py as [v imp args]. unfold startup_ok.
  cbn [argv importable version_info] in *.
  open_script. cbn [argv importable version_info List.filter].
  destruct (version_lt v (3, 6)%nat) eqn:Hsyn.
  { script_step. do 2 eexists. split; [reflexivity|].
    split; [done|]. split; [constructor|].
    intros (_ & _ & Hver). apply version_parses in Hver. congruence. }
  script_step.
  destruct (imp "pandas") eqn:Hpandas.
  2:{ script_step. do 2 eexists. split; [reflexivity|].
      split; [done|]. split; [constructor|]. intros (? & _); done. }
  script_step.
  destruct (imp "matplotlib") eqn:Hmpl.
  2:{ script_step. do 2 eexists. split; [reflexivity|].
      split; [done|]. split; [constructor|]. intros (_ & ? & _); done. }
  script_step.
  destruct (version_lt v (3, 7)%nat) eqn:Hver.
  { repeat script_step.
    do 2 eexists. split; [reflexivity|]. split; [done|]. split.
    - repeat constructor. by eexists.
    - intros (_ & _ & ?); done. }
  do 2 script_step.
  rewrite Hargv. repeat script_step.
  do 2 eexists. split; [reflexivity|]. split; [done|]. split; [|done].
  repeat constructor. by eexists.
Qed.

(** How a run ends once the startup checks are passed and the command line
    is long enough: at the first thing that is missing, in the order of the
    script; at [tight_layout], when the library cannot lay the figure out;
    at the end of the script otherwise. *)
Definition recorder_end (fs : gmap string DataFrame) (path asset : string)
  : world cell cell * (exn + unit) :=
  let stopped (evs : list (event cell cell)) (axes : nat) (e : exn) :=
    ({| files := fs; log := evs; axes_count := axes |}, inl (B := unit) e) in
  match fs !! path with
  | None => stopped [ReadCsv path] 0%nat (FileNotFoundError path)
  | Some df =>
  match df !! "timestamp" with
  | None => stopped [ReadCsv path] 0%nat (KeyError "timestamp")
  | Some ts =>
  match mapM conv ts with
  | None => stopped [ReadCsv path] 0%nat (ValueError (datetime_error ts))
  | Some cts =>
  match df !! "equity" with
  | None =>
      stopped (take 2 (recorder_drawn path asset cts [] [] [])) 2%nat
        (KeyError "equity")
  | Some eq =>
  match df !! "mid_price" with
  | None =>
      stopped (take 8 (recorder_drawn path asset cts eq [] [])) 3%nat
        (KeyError "mid_price")
  | Some mid =>
  match df !! "position" with
  | None =>
      stopped (take 12 (recorder_drawn path asset cts eq mid [])) 3%nat
        (KeyError "position")
  | Some pos =>
  match layout_error (recorder_drawn path asset cts eq mid pos) with
  | Some msg =>
      stopped (recorder_drawn path asset cts eq mid pos) 4%nat (ValueError msg)
  | None =>
      ({| files := fs; log := recorder_events path asset cts eq mid pos;
          axes_count := 4 |}, inr tt)
  end end end end end end end.

Lemma recorder_run (py : interpreter) (fs : gmap string DataFrame)
    (path asset : string) :
  startup_ok py ->
  argv py !! 1%nat = Some path ->
  argv py !! 2%nat = Some asset ->
  (forall df : DataFrame, fs !! path = Some df -> rectangular df) ->
  run (plot_recorder conv py) fs = recorder_end fs path asset.
Proof.
  intros (Hpandas & Hmpl & Hver) Hpath Hasset Hrect.
  assert (Hsyn := version_parses _ Hver).
  assert (Hargv : Nat.ltb (length (argv py)) 3 = false).
  { apply Nat.ltb_ge. apply lookup_lt_Some in Hasset. lia. }
  destruct py as [v imp args]. cbn [argv importable version_info] in *.
  unfold recorder_end, recorder_events, recorder_drawn.
  open_script. cbn [argv importable version_info List.filter].
  rewrite Hsyn, Hpandas, Hmpl, Hver, Hargv, Hpath, Hasset.
  repeat script_step.
  destruct (fs !! path) as [df |] eqn:Hfile.
  2:{ rewrite (run_bind_read_csv_missing path) by done. done. }
  rewrite (run_bind_read_csv path df) by done. script_simpl.
  specialize (Hrect df eq_refl).
  destruct (df !! "timestamp") as [ts |] eqn:Hts.
  2:{ script_step. done. }
  script_step.
  destruct (mapM conv ts) as [cts |] eqn:Hconv.
  2:{ script_step. done. }
  assert (Hlen : length cts = length ts) by (symmetry; by eapply length_mapM).
  repeat script_step.
  rewrite lookup_insert_eq.
  rewrite !(lookup_insert_ne df "timestamp") by done.
  repeat script_step.
  destruct (df !! "equity") as [eq |] eqn:Heq.
  2:{ script_step. done. }
  script_step.
  rewrite (run_bind_plot _ cts eq) by (by rewrite Hlen, (Hrect _ _ _ _ Hts Heq)).
  repeat script_step.
  destruct (df !! "mid_price") as [mid |] eqn:Hmid.
  2:{ script_step. done. }
  script_step.
  rewrite (run_bind_plot _ cts mid) by (by rewrite Hlen, (Hrect _ _ _ _ Hts Hmid)).
  repeat script_step.
  destruct (df !! "position") as [pos |] eqn:Hpos.
  2:{ script_step. done. }
  script_step.
  rewrite (run_bind_plot _ cts pos) by (by rewrite Hlen, (Hrect _ _ _ _ Hts Hpos)).
  repeat script_step.
  rewrite (run_bind_plot _ cts mid) by (by rewrite Hlen, (Hrect _ _ _ _ Hts Hmid)).
  repeat script_step.
  rewrite run_bind_tight_layout. script_simpl.
  destruct (layout_error _); done.
Qed.
End Runs.

(** A conversion, an interpreter and a recorder file to run the script on. *)
Definition us_to_datetime (c : cell) : option cell :=
  match c with
  | Int64 z => Some (Datetime64 z)
  | _ => None
  end.

Definition python311 (args : list string) : interpreter :=
  {| version_info := (3, 11)%nat; importable := fun _ => true; argv := args |}.

Definition python36 (args : list string) : interpreter :=
  {| version_info := (3, 6)%nat; importable := fun _ => true; argv := args |}.

Definition recording : DataFrame :=
  <["timestamp" := [Int64 1000000; Int64 2000000]]>
  (<["equity" := [Float64 (Numpy.Fin 100); Float64 (Numpy.Fin 110)]]>
  (<["mid_price" := [Float64 (Numpy.Fin 5); Float64 (Numpy.Fin 6)]]>
  (<["position" := [Int64 0; Int64 1]]> ∅))).

Lemma rectangular_two_rows (df : DataFrame) :
  map_Forall (fun _ column => length column = 2%nat) df -> rectangular df.
Proof.
  intros Hall c1 c2 s1 s2 H1 H2.
  by rewrite (Hall _ _ H1), (Hall _ _ H2).
Qed.

Lemma recording_rectangular : rectangular recording.
Proof.
  apply rectangular_two_rows. unfold recording.
  repeat (apply map_Forall_insert_2; [reflexivity|]). apply map_Forall_empty.
Qed.

Lemma recording_without_position_rectangular :
  rectangular (delete "position" recording).
Proof.
  apply rectangular_two_rows. apply map_Forall_delete. unfold recording.
  repeat (apply map_Forall_insert_2; [reflexivity|]). apply map_Forall_empty.
Qed.

Lemma only_file_rectangular (name : string) (table : DataFrame) :
  rectangular table ->
  forall df : DataFrame,
    (<[name := table]> (∅ : gmap string DataFrame)) !! name = Some df ->
    rectangular df.
Proof. intros Hrect df Hdf. rewrite lookup_insert_eq in Hdf. by simplify_eq. Qed.

(** C5.  On a file the script reads whose table has the [timestamp],
    [equity] and [mid_price] columns, with timestamps that convert, but no
    [position] column, the script dies of [KeyError('position')], with exit
    status 1, and [plt.show] is not reached, so no window opens. *)
Theorem missing_position_column {lib : Layout cell cell} {pd : DatetimeErrors}
    (conv : cell -> option cell) (py : interpreter)
    (fs : gmap string DataFrame) (path asset : string) (df : DataFrame)
    (ts cts eq mid : list cell) :
  startup_ok py ->
  argv py !! 1%nat = Some path ->
  argv py !! 2%nat = Some asset ->
  fs !! path = Some df ->
  rectangular df ->
  df !! "timestamp" = Some ts ->
  mapM conv ts = Some cts ->
  df !! "equity" = Some eq ->
  df !! "mid_price" = Some mid ->
  df !! "position" = None ->
  (run (plot_recorder conv py) fs).2 = inl (KeyError "position")
  /\ exit_status (run (plot_recorder conv py) fs).2 = 1%Z
  /\ Show ∉ log (run (plot_recorder conv py) fs).1.
Proof.
  intros Hok Hpath Hasset Hfile Hrect Hts Hconv Heq Hmid Hpos.
  rewrite (recorder_run conv py fs path asset) by (done || by intros; simplify_eq).
  unfold recorder_end. rewrite Hfile, Hts, Hconv, Heq, Hmid, Hpos.
  cbn. repeat split.
  intros Hin. repeat (apply elem_of_cons in Hin as [Hin | Hin]; [discriminate|]).
  by apply elem_of_nil in Hin.
Qed.

Lemma missing_position_column_witness :
  (run (plot_recorder (lib:=accepting) (pd:=terse) us_to_datetime
          (python311 ["plot_recorder.py"; "rec.csv"; "BTC"]))
     (<["rec.csv" := delete "position" recording]> ∅)).2
  = inl (KeyError "position")
  /\ exit_status
       (run (plot_recorder (lib:=accepting) (pd:=terse) us_to_datetime
               (python311 ["plot_recorder.py"; "rec.csv"; "BTC"]))
          (<["rec.csv" := delete "position" recording]> ∅)).2 = 1%Z
  /\ Show ∉ log
       (run (plot_recorder (lib:=accepting) (pd:=terse) us_to_datetime
               (python311 ["plot_recorder.py"; "rec.csv"; "BTC"]))
          (<["rec.csv" := delete "position" recording]> ∅)).1.
Proof.
  apply (missing_position_column (lib:=accepting) (pd:=terse) us_to_datetime
           (python311 ["plot_recorder.py"; "rec.csv"; "BTC"])
           (<["rec.csv" := delete "position" recording]> ∅)
           "rec.csv" "BTC" (delete "position" recording)
           [Int64 1000000; Int64 2000000]
           [Datetime64 1000000; Datetime64 2000000]
           [Float64 (Numpy.Fin 100); Float64 (Numpy.Fin 110)]
           [Float64 (Numpy.Fin 5); Float64 (Numpy.Fin 6)]).
  - repeat split; reflexivity.
  - reflexivity.
  - reflexivity.
  - vm_compute. reflexivity.
  - apply recording_without_position_rectangular.
  - vm_compute. reflexivity.
  - reflexivity.
  - vm_compute. reflexivity.
  - vm_compute. reflexivity.
  - vm_compute. reflexivity.
Defined.

(** The series a chart draws, in the order of the plot calls. *)
Definition plotted (evs : list (event cell cell)) : list (list cell * list cell) :=
  omap (fun ev => match ev with Plot _ x y _ => Some (x, y) | _ => None end) evs.

(** The files a run opened. *)
Definition files_read (evs : list (event cell cell)) : list string :=
  omap (fun ev => match ev with ReadCsv path => Some path | _ => None end) evs.

Lemma files_read_prints (evs : list (event cell cell)) :
  Forall (fun ev => exists line, ev = Print line) evs -> files_read evs = [].
Proof.
  induction 1 as [| ev evs [line ->] _ IH]; [done|]. exact IH.
Qed.

(** C6, as the code has it.  With fewer than three words on the command
    line the script exits with a status that is not zero and reads no file;
    when the startup checks pass (interpreter 3.7 or later, pandas and
    matplotlib importable) what it prints is the usage line, and the exit
    status is 1. *)
Theorem usage_on_short_command_line {lib : Layout cell cell}
    {pd : DatetimeErrors} (conv : cell -> option cell)
    (py : interpreter) (fs : gmap string DataFrame) :
  (length (argv py) < 3)%nat ->
  exit_status (run (plot_recorder conv py) fs).2 <> 0%Z
  /\ files_read (log (run (plot_recorder conv py) fs).1) = []
  /\ (startup_ok py ->
      log (run (plot_recorder conv py) fs).1
      = [Print "Usage: python plot_recorder.py <csv_filename> <asset_id>"]
      /\ (run (plot_recorder conv py) fs).2 = inl (SystemExit 1)).
Proof.
  intros Hargv.
  destruct (short_argv_run conv py fs Hargv) as (out & e & -> & Hexit & Hout & Hok).
  cbn [fst snd log]. rewrite Hexit. split; [done|]. split.
  - by apply files_read_prints.
  - intros Hstart. destruct (Hok Hstart) as [-> ->]. done.
Qed.

Lemma usage_on_short_command_line_witness :
  log (run (plot_recorder (lib:=accepting) (pd:=terse) us_to_datetime
              (python311 ["plot_recorder.py"; "rec.csv"]))
         (<["rec.csv" := recording]> ∅)).1
  = [Print "Usage: python plot_recorder.py <csv_filename> <asset_id>"]
  /\ (run (plot_recorder (lib:=accepting) (pd:=terse) us_to_datetime
             (python311 ["plot_recorder.py"; "rec.csv"]))
        (<["rec.csv" := recording]> ∅)).2 = inl (SystemExit 1).
Proof.
  apply (usage_on_short_command_line (lib:=accepting) (pd:=terse) us_to_datetime
           (python311 ["plot_recorder.py"; "rec.csv"])
           (<["rec.csv" := recording]> ∅)).
  - simpl. lia.
  - repeat split; reflexivity.
Defined.

(** C6 fails under an interpreter older than 3.7: with the program name
    alone on the command line the script prints the version message, not
    the usage line, and exits with status 1. *)
Lemma usage_not_printed_on_old_interpreter :
  (length (argv (python36 ["plot_recorder.py"])) < 3)%nat
  /\ (forall (lib : Layout cell cell) (pd : DatetimeErrors),
        run (plot_recorder us_to_datetime (python36 ["plot_recorder.py"])) ∅
        = ({| files := ∅; log := [Print "Python 3.7 or higher is required."];
              axes_count := 0 |}, inl (SystemExit 1))
        /\ Print "Usage: python plot_recorder.py <csv_filename> <asset_id>"
           ∉ log (run (plot_recorder us_to_datetime
                         (python36 ["plot_recorder.py"])) ∅).1).
Proof.
  split; [simpl; lia|]. intros lib pd. split; [reflexivity|].
  intros Hin. apply list_elem_of_singleton in Hin. discriminate.
Qed.

(** C9.  No run of the script changes a file.  On a run that loads the
    table and converts its [timestamp] column, every series drawn has the
    converted timestamps as its x values and, as its y values, the
    [equity], the [mid_price] or the [position] column as it was read; the
    one file read is the one named on the command line; and when the run
    reaches its end the series drawn are the converted timestamps against
    [equity], [mid_price], [position] and again [mid_price]. *)
Theorem timestamp_conversion_frame {lib : Layout cell cell}
    {pd : DatetimeErrors} (conv : cell -> option cell)
    (py : interpreter) (fs : gmap string DataFrame) :
  files (run (plot_recorder conv py) fs).1 = fs
  /\ (forall (path asset : string) (df : DataFrame) (ts cts : list cell),
        startup_ok py ->
        argv py !! 1%nat = Some path ->
        argv py !! 2%nat = Some asset ->
        fs !! path = Some df ->
        rectangular df ->
        df !! "timestamp" = Some ts ->
        mapM conv ts = Some cts ->
        (forall x y : list cell,
           (x, y) ∈ plotted (log (run (plot_recorder conv py) fs).1) ->
           x = cts
           /\ (df !! "equity" = Some y \/ df !! "mid_price" = Some y
               \/ df !! "position" = Some y))
        /\ files_read (log (run (plot_recorder conv py) fs).1) = [path]
        /\ ((run (plot_recorder conv py) fs).2 = inr tt ->
            exists eq mid pos : list cell,
              df !! "equity" = Some eq
              /\ df !! "mid_price" = Some mid
              /\ df !! "position" = Some pos
              /\ plotted (log (run (plot_recorder conv py) fs).1)
                 = [(cts, eq); (cts, mid); (cts, pos); (cts, mid)])).
Proof.
  split.
  - unfold run. by rewrite plot_recorder_keeps_files.
  - intros path asset df ts cts Hok Hpath Hasset Hfile Hrect Hts Hconv.
    rewrite (recorder_run conv py fs path asset) by (done || by intros; simplify_eq).
    unfold recorder_end. rewrite Hfile, Hts, Hconv.
    assert (Hseries : forall series : list (list cell * list cell),
              Forall (fun xy => xy.1 = cts
                        /\ (df !! "equity" = Some xy.2
                            \/ df !! "mid_price" = Some xy.2
                            \/ df !! "position" = Some xy.2)) series ->
              forall x y : list cell,
                (x, y) ∈ series ->
                x = cts
                /\ (df !! "equity" = Some y \/ df !! "mid_price" = Some y
                    \/ df !! "position" = Some y)).
    { intros series Hall x y Hxy.
      by apply (proj1 (Forall_forall _ _) Hall (x, y)). }
    destruct (df !! "equity") as [eq |] eqn:Heq;
      [destruct (df !! "mid_price") as [mid |] eqn:Hmid;
       [destruct (df !! "position") as [pos |] eqn:Hpos;
        [destruct (layout_error _) as [msg |] |] |] |];
      cbn; (split; [|split; [done|]]);
      try (apply Hseries;
           repeat first [ apply List.Forall_nil
                        | apply List.Forall_cons; [split; [done | cbn; eauto] |] ]);
      try done.
    intros _. by exists eq, mid, pos.
Qed.

Lemma timestamp_conversion_frame_witness :
  files_read
    (log (run (plot_recorder (lib:=accepting) (pd:=terse) us_to_datetime
                 (python311 ["plot_recorder.py"; "rec.csv"; "BTC"]))
            (<["rec.csv" := recording]> ∅)).1) = ["rec.csv"]
  /\ exists eq mid pos : list cell,
       recording !! "equity" = Some eq
       /\ recording !! "mid_price" = Some mid
       /\ recording !! "position" = Some pos
       /\ plotted
            (log (run (plot_recorder (lib:=accepting) (pd:=terse) us_to_datetime
                         (python311 ["plot_recorder.py"; "rec.csv"; "BTC"]))
                    (<["rec.csv" := recording]> ∅)).1)
          = [ ([Datetime64 1000000; Datetime64 2000000], eq);
              ([Datetime64 1000000; Datetime64 2000000], mid);
              ([Datetime64 1000000; Datetime64 2000000], pos);
              ([Datetime64 1000000; Datetime64 2000000], mid) ].
Proof.
  destruct (timestamp_conversion_frame (lib:=accepting) (pd:=terse) us_to_datetime
              (python311 ["plot_recorder.py"; "rec.csv"; "BTC"])
              (<["rec.csv" := recording]> ∅)) as (_ & Hrun).
  destruct (Hrun "rec.csv" "BTC" recording [Int64 1000000; Int64 2000000]
              [Datetime64 1000000; Datetime64 2000000])
    as (_ & Hread & Hend).
  - repeat split; reflexivity.
  - reflexivity.
  - reflexivity.
  - vm_compute. reflexivity.
  - apply recording_rectangular.
  - vm_compute. reflexivity.
  - reflexivity.
  - split; [exact Hread|]. apply Hend. vm_compute. reflexivity.
Defined.

End RecorderSpec.

(** * Further properties of the drawdown series *)

Module SeriesSpec.
Import Numpy Drawdown OrderFacts PeakFacts DrawdownFacts.

(** X1.  The running peak at an index is one of the equity values up to
    that index, whatever the dtype: [np.maximum] returns one of its
    operands. *)
Theorem peak_attained {A : Type} `{Dtype A} (equity : list A) (i : nat) (p : A) :
  peak equity !! i = Some p ->
  exists j : nat, (j <= i)%nat /\ equity !! j = Some p.
Proof. apply peak_reached. Qed.

Lemma peak_attained_witness :
  exists j : nat,
    (j <= 2)%nat /\ [100; 110; 90]%float !! j = Some 110%float.
Proof.
  apply (peak_attained [100; 110; 90]%float 2 110%float). reflexivity.
Defined.

(** X2.  For every array of floats, at an index where the running peak is
    a number the drawdown [equity - peak] is at most zero (minus infinity
    where the equity is minus infinity or the difference overflows), and
    it is zero exactly when the equity equals the peak there; the sign of
    the peak does not matter. *)
Theorem drawdown_nonpositive (equity : list num) (i : nat) (e : num) (p : Q) :
  equity !! i = Some e ->
  peak equity !! i = Some (Fin p) ->
  exists d : num,
    drawdown equity !! i = Some d
    /\ less_equal d (of_int 0) = true
    /\ (equal d (of_int 0) = true <-> equal e (Fin p) = true).
Proof.
  intros He Hp.
  assert (Hle : num_less_equal e (Fin p) = true).
  { by apply (proj1 (peak_bounds equity) i). }
  eexists. split; [by apply drawdown_lookup|].
  rewrite sign_less_equal_zero, sign_equal_zero.
  destruct (sign_subtract_below e p Hle) as [(-> & -> & _) | (-> & -> & _)].
  - split; [by left | done].
  - split; [by right | done].
Qed.

Lemma drawdown_nonpositive_witness :
  exists d : num,
    drawdown [Fin (0 - 1); NInf] !! 1%nat = Some d
    /\ less_equal d (of_int 0) = true
    /\ (equal d (of_int 0) = true <-> equal NInf (Fin (0 - 1)) = true).
Proof.
  apply (drawdown_nonpositive [Fin (0 - 1); NInf] 1 NInf (0 - 1)); reflexivity.
Defined.

(** X3.  For every array of floats, below a negative running peak the sign
    of the percentage is turned: it is at least zero (plus infinity where
    the equity is minus infinity or the result overflows), and zero exactly
    when the equity equals the peak. *)
Theorem drawdown_pct_nonnegative_below_negative_peak (equity : list num)
    (i : nat) (e : num) (p : Q) :
  equity !! i = Some e ->
  peak equity !! i = Some (Fin p) ->
  p < 0 ->
  exists d : num,
    drawdown_pct equity !! i = Some d
    /\ greater_equal d (of_int 0) = true
    /\ (equal d (of_int 0) = true <-> equal e (Fin p) = true).
Proof.
  intros He Hp Hneg.
  assert (Hle : num_less_equal e (Fin p) = true).
  { by apply (proj1 (peak_bounds equity) i). }
  eexists. split; [by apply drawdown_pct_lookup|].
  rewrite sign_greater_equal_zero, sign_equal_zero.
  rewrite sign_times_hundred, sign_divide_negative by done.
  destruct (sign_subtract_below e p Hle) as [(-> & -> & _) | (-> & -> & _)].
  - split; [by left | done].
  - split; [by right | done].
Qed.

Lemma drawdown_pct_nonnegative_below_negative_peak_witness :
  exists d : num,
    drawdown_pct [Fin (0 - 1); Fin (0 - 2)] !! 1%nat = Some d
    /\ greater_equal d (of_int 0) = true
    /\ (equal d (of_int 0) = true <-> equal (Fin (0 - 2)) (Fin (0 - 1)) = true).
Proof.
  apply (drawdown_pct_nonnegative_below_negative_peak
           [Fin (0 - 1); Fin (0 - 2)] 1 (Fin (0 - 2)) (0 - 1)); reflexivity.
Defined.

Lemma maximum_nan_l (b : num) : maximum NaN b = NaN.
Proof. unfold maximum. cbn. by rewrite orb_true_r. Qed.

Lemma maximum_nan_r (a : num) : maximum a NaN = NaN.
Proof. by destruct a. Qed.

Lemma accumulate_from_nan (a : list num) (i : nat) :
  (i < length a)%nat -> accumulate_from maximum NaN a !! i = Some NaN.
Proof.
  revert i. induction a as [| x a IH]; intros i Hi; [simpl in Hi; lia|].
  cbn [accumulate_from]. rewrite maximum_nan_l.
  destruct i as [| i]; [done|]. apply IH. simpl in Hi. lia.
Qed.

Lemma accumulate_from_poisoned (a : list num) :
  forall (acc : num) (k i : nat),
    a !! k = Some NaN -> (k <= i)%nat -> (i < length a)%nat ->
    accumulate_from maximum acc a !! i = Some NaN.
Proof.
  induction a as [| x a IH]; intros acc k i Hk Hki Hi; [done|].
  cbn [accumulate_from]. destruct k as [| k]; simplify_eq/=.
  - rewrite maximum_nan_r. destruct i as [| i]; [done|].
    apply accumulate_from_nan. lia.
  - destruct i as [| i]; [lia|]. apply (IH _ k); [done | lia | lia].
Qed.

(** X4.  A NaN in the equity poisons the rest of the series: from its index
    on, the running peak and the drawdown percentage are NaN. *)
Theorem nan_poisons_series (equity : list num) (k i : nat) :
  equity !! k = Some NaN ->
  (k <= i)%nat ->
  (i < length equity)%nat ->
  peak equity !! i = Some NaN /\ drawdown_pct equity !! i = Some NaN.
Proof.
  intros Hk Hki Hi.
  assert (Hp : peak equity !! i = Some NaN).
  { destruct equity as [| x equity]; [done|]. unfold peak. cbn [accumulate].
    destruct k as [| k]; simplify_eq/=.
    - destruct i as [| i]; [done|]. apply accumulate_from_nan. lia.
    - destruct i as [| i]; [lia|].
      apply (accumulate_from_poisoned _ _ k); [done | lia | lia]. }
  split; [done|].
  destruct (lookup_lt_is_Some_2 equity i Hi) as [e He].
  rewrite (drawdown_pct_lookup _ i e NaN He Hp). by destruct e.
Qed.

Lemma nan_poisons_series_witness :
  peak [Fin 100; NaN; Fin 120] !! 2%nat = Some NaN
  /\ drawdown_pct [Fin 100; NaN; Fin 120] !! 2%nat = Some NaN.
Proof.
  apply (nan_poisons_series [Fin 100; NaN; Fin 120] 1 2);
    [reflexivity | lia | simpl; lia].
Defined.

(** X5.  The drawdown of a sequence of numbers is zero at every index
    exactly when the sequence never falls. *)
Theorem drawdown_zero_iff_nondecreasing (E : list Q) :
  (forall (i : nat) (d : num), drawdown (Fin <$> E) !! i = Some d -> d = Fin 0)
  <->
  (forall (i j : nat) (e e' : Q),
     (i <= j)%nat -> E !! i = Some e -> E !! j = Some e' -> e <= e').
Proof.
  destruct (peak_numbers E) as (P & HP & Hlen & _ & Habove & Hmono).
  assert (Hdd : forall i e p, E !! i = Some e -> P !! i = Some p ->
                drawdown (Fin <$> E) !! i
                = Some (finite_or_inf (Qred (e - p)))).
  { intros i e p He Hp. unfold drawdown, elementwise.
    by rewrite lookup_zip_with, HP, !list_lookup_fmap, He, Hp. }
  assert (HPi : forall i e, E !! i = Some e -> exists p, P !! i = Some p).
  { intros i e He. apply lookup_lt_is_Some. rewrite Hlen.
    by eapply lookup_lt_Some. }
  split.
  - intros Hzero i j e e' Hij He He'.
    destruct (HPi _ _ He) as [p Hp], (HPi _ _ He') as [p' Hp'].
    pose proof (Hzero _ _ (Hdd _ _ _ He' Hp')) as Hz.
    apply finite_or_inf_number in Hz.
    assert (Hq : e' - p' == 0) by (by rewrite <- Qred_correct, Hz).
    pose proof (Habove _ _ _ He Hp). pose proof (Hmono _ _ _ _ Hij Hp Hp').
    lra.
  - intros Hnd i d Hd.
    assert (Hi : (i < length E)%nat).
    { apply lookup_lt_Some in Hd. unfold drawdown, elementwise in Hd.
      rewrite length_zip_with, length_fmap in Hd. lia. }
    destruct (lookup_lt_is_Some_2 E i Hi) as [e He].
    destruct (HPi _ _ He) as [p Hp].
    rewrite (Hdd _ _ _ He Hp) in Hd. injection Hd as <-.
    assert (Hpk : peak (Fin <$> E) !! i = Some (Fin p))
      by (by rewrite HP, list_lookup_fmap, Hp).
    destruct (peak_reached _ _ _ Hpk) as (j & Hj & Hat).
    rewrite list_lookup_fmap in Hat.
    destruct (E !! j) as [ej |] eqn:Hej; simplify_eq/=.
    pose proof (Hnd _ _ _ _ Hj Hej He). pose proof (Habove _ _ _ He Hp).
    assert (Hz : Qred (e - p) = 0).
    { change 0 with (Qred 0). apply Qred_complete. lra. }
    rewrite Hz. vm_compute. reflexivity.
Qed.

Lemma drawdown_zero_iff_nondecreasing_witness :
  ~ (forall (i j : nat) (e e' : Q),
       (i <= j)%nat -> [100; 90] !! i = Some e -> [100; 90] !! j = Some e' ->
       e <= e').
Proof.
  intros Hnd.
  assert (Hd : drawdown (Fin <$> [100; 90]) !! 1%nat = Some (Fin (0 - 10)))
    by (vm_compute; reflexivity).
  pose proof (proj2 (drawdown_zero_iff_nondecreasing [100; 90]) Hnd 1%nat
                (Fin (0 - 10)) Hd) as Hz.
  discriminate Hz.
Defined.

(** X6.  The derived series have the length of the equity, whatever the
    dtype; on the empty array they are empty and nothing is raised. *)
Theorem series_lengths {A : Type} `{Dtype A} (equity : list A) :
  length (peak equity) = length equity
  /\ length (drawdown equity) = length equity
  /\ length (drawdown_pct equity) = length equity.
Proof.
  split; [apply peak_length|]. split; [|apply drawdown_pct_length].
  unfold drawdown, elementwise. rewrite length_zip_with, peak_length. lia.
Qed.

(** X7.  For every array of floats, over a positive running peak the mask
    [drawdown_pct < 0] given to [fill_between] is set exactly where the
    equity is below the peak. *)
Theorem shaded_where_below_peak (equity : list num) (i : nat) (e : num) (p : Q) :
  equity !! i = Some e ->
  peak equity !! i = Some (Fin p) ->
  0 < p ->
  exists b : bool,
    elementwise_scalar less (drawdown_pct equity) (of_int 0) !! i = Some b
    /\ (b = true <-> less e (Fin p) = true).
Proof.
  intros He Hp Hpos.
  assert (Hle : num_less_equal e (Fin p) = true).
  { by apply (proj1 (peak_bounds equity) i). }
  eexists. split.
  - unfold elementwise_scalar.
    by rewrite list_lookup_fmap, (drawdown_pct_lookup _ i e (Fin p)).
  - rewrite sign_less_zero, sign_times_hundred, sign_divide_positive by done.
    destruct (sign_subtract_below e p Hle) as [(-> & _ & ->) | (-> & _ & ->)];
      done.
Qed.

Lemma shaded_where_below_peak_witness :
  exists b : bool,
    elementwise_scalar less (drawdown_pct [Fin 100; Fin 110; NInf]) (of_int 0)
      !! 2%nat = Some b
    /\ (b = true <-> less NInf (Fin 110) = true).
Proof.
  apply (shaded_where_below_peak [Fin 100; Fin 110; NInf] 2 NInf 110);
    reflexivity.
Defined.

End SeriesSpec.

(** * When the window opens *)

Module ShowFacts.
Import Numpy Python Matplotlib.
Local Open Scope script_scope.

Section Show.
Context {X Y : Type}.

(** A computation that does not reach [plt.show]. *)
Definition never_shows {R : Type} (m : M (X:=X) (Y:=Y) R) : Prop :=
  forall w : world X Y, Show ∈ log (m w).1 -> Show ∈ log w.

(** A computation that reaches [plt.show] exactly when it returns. *)
Definition shows_iff_returns (m : M (X:=X) (Y:=Y) unit) : Prop :=
  forall w : world X Y,
    Show ∉ log w -> (Show ∈ log (m w).1 <-> (m w).2 = inr tt).

Lemma never_ret {R : Type} (r : R) : never_shows (ret r).
Proof. by intros w. Qed.

Lemma never_raise {R : Type} (e : exn) : never_shows (raise (R:=R) e).
Proof. by intros w. Qed.

Lemma never_new_axes : never_shows new_axes.
Proof. by intros w. Qed.

Lemma never_emit (ev : event X Y) : ev <> Show -> never_shows (emit ev).
Proof.
  intros Hev w Hin. cbn in Hin. apply elem_of_app in Hin as [Hin | Hin]; [done|].
  apply list_elem_of_singleton in Hin. by subst.
Qed.

Lemma never_bind {R T : Type} (m : M R) (k : R -> M T) :
  never_shows m -> (forall r : R, never_shows (k r)) -> never_shows (bind m k).
Proof.
  intros Hm Hk w. unfold bind. specialize (Hm w).
  destruct (m w) as [w' [e | r]]; [done|].
  intros Hin. apply Hm. by apply (Hk r).
Qed.

Lemma never_when (b : bool) (m : M unit) :
  never_shows m -> never_shows (when b m).
Proof. intros Hm. destruct b; [done | apply never_ret]. Qed.

Lemma never_plot (on : target) (x : list X) (y : list Y) (kw : style) :
  never_shows (plot on x y kw).
Proof.
  unfold plot. destruct (Nat.eqb (length x) (length y));
    [by apply never_emit | apply never_raise].
Qed.

Lemma never_fill_between (ax : nat) (x : list X) (y1 y2 : operand Y)
    (where_ : option (list bool)) (kw : style) :
  never_shows (ax_fill_between ax x y1 y2 where_ kw).
Proof.
  unfold ax_fill_between.
  destruct (negb _); [apply never_raise|].
  destruct (broadcastable _ _); [by apply never_emit | apply never_raise].
Qed.

Lemma never_set_ylim {dtype : Dtype Y} (ax : nat) (bottom : Y) :
  never_shows (ax_set_ylim ax bottom).
Proof.
  unfold ax_set_ylim.
  destruct (isfinite bottom); [by apply never_emit | apply never_raise].
Qed.

Lemma never_tight_layout {lib : Layout X Y} : never_shows plt_tight_layout.
Proof.
  intros w. unfold plt_tight_layout.
  destruct (layout_error (log w)); [done|]. by apply never_emit.
Qed.

Lemma returns_show : shows_iff_returns plt_show.
Proof.
  intros w Hw. cbn. split; [done|]. intros _.
  apply elem_of_app. right. by apply list_elem_of_singleton.
Qed.

Lemma returns_bind {R : Type} (m : M R) (k : R -> M unit) :
  never_shows m -> (forall r : R, shows_iff_returns (k r)) ->
  shows_iff_returns (bind m k).
Proof.
  intros Hm Hk w Hw. unfold bind. specialize (Hm w).
  destruct (m w) as [w' [e | r]].
  - cbn in *. split; [|done]. intros Hin. destruct Hw. by apply Hm.
  - apply Hk. intros Hin. destruct Hw. by apply Hm.
Qed.
End Show.

End ShowFacts.

Module ChartSpec.
Import Numpy Drawdown Python Matplotlib Util UtilFacts ShowFacts RecorderSpec.
Local Open Scope script_scope.

Ltac never_shows_tac :=
  repeat first
    [ apply never_bind; [| intros ?]
    | apply never_when
    | apply never_plot
    | apply never_fill_between
    | apply never_set_ylim
    | apply never_tight_layout
    | apply never_ret
    | apply never_raise
    | apply never_new_axes
    | apply never_emit; discriminate
    | progress unfold plt_figure, plt_subplots_single, plt_subplots_column,
        ax_twinx, plt_xlabel, plt_ylabel, ax_set_ylabel, plt_title,
        plt_suptitle, ax_tick_params, legend, grid, set_yscale,
        plt_minorticks_on ].

Ltac events_tac :=
  intros;
  repeat match goal with
    | Hin : _ ∈ _ :: _ |- _ => apply elem_of_cons in Hin as [Hin | Hin]
    | Hin : _ ∈ [] |- _ => by apply elem_of_nil in Hin
    end;
  simplify_eq; done.

(** X8.  Both plotting functions open the window exactly when they return:
    a call that raises has not reached [plt.show], and a call that returns
    has. *)
Theorem window_iff_returns {X A : Type} `{Dtype A} {lib : Layout X A}
    (x : list X) (y : list A)
    (xlabel ylabel title : string) (y_lim : A) (log_ : bool) (w : world X A) :
  Show ∉ log w ->
  (Show ∈ log (plot_equity x y xlabel ylabel title log_ w).1
   <-> (plot_equity x y xlabel ylabel title log_ w).2 = inr tt)
  /\ (Show ∈ log (plot_equity_dd x y xlabel ylabel title y_lim log_ w).1
      <-> (plot_equity_dd x y xlabel ylabel title y_lim log_ w).2 = inr tt).
Proof.
  intros Hw. split.
  - revert w Hw. change (shows_iff_returns (plot_equity x y xlabel ylabel title log_)).
    unfold plot_equity.
    repeat (apply returns_bind; [by never_shows_tac | intros ?]).
    apply returns_show.
  - revert w Hw.
    change (shows_iff_returns (plot_equity_dd x y xlabel ylabel title y_lim log_)).
    unfold plot_equity_dd. cbv zeta.
    repeat (apply returns_bind; [by never_shows_tac | intros ?]).
    apply returns_show.
Qed.

Lemma window_iff_returns_witness :
  (Show ∈ log (plot_equity (lib:=rejecting) [1; 2]%nat [Fin 100; Fin 90] "x" "y"
                 "title" false
                 {| files := ∅; log := []; axes_count := 0 |}).1
   <-> (plot_equity (lib:=rejecting) [1; 2]%nat [Fin 100; Fin 90] "x" "y"
          "title" false
          {| files := ∅; log := []; axes_count := 0 |}).2 = inr tt)
  /\ (Show ∈ log (plot_equity_dd (lib:=rejecting) [1; 2]%nat [Fin 100; Fin 90]
                    "x" "y" "title" (Fin 0) false
                    {| files := ∅; log := []; axes_count := 0 |}).1
      <-> (plot_equity_dd (lib:=rejecting) [1; 2]%nat [Fin 100; Fin 90] "x" "y"
             "title" (Fin 0) false
             {| files := ∅; log := []; axes_count := 0 |}).2 = inr tt).
Proof.
  apply (window_iff_returns (lib:=rejecting) [1; 2]%nat [Fin 100; Fin 90] "x"
           "y" "title" (Fin 0) false
           {| files := ∅; log := []; axes_count := 0 |}).
  simpl. apply not_elem_of_nil.
Defined.

(** X9.  [plot_equity_dd] on [time] and [equity] of different lengths
    raises a [ValueError] from the library, before any label is set and
    without reaching [plt.show]. *)
Theorem plot_equity_dd_length_mismatch {X A : Type} `{Dtype A}
    {lib : Layout X A} (time : list X)
    (equity : list A) (xlabel ylabel title : string) (y_lim : A) (log_ : bool)
    (w : world X A) :
  length time <> length equity ->
  exists (w' : world X A) (msg : string) (evs : list (event X A)),
    plot_equity_dd time equity xlabel ylabel title y_lim log_ w
    = (w', inl (ValueError msg))
    /\ log w' = log w ++ evs
    /\ texts evs = []
    /\ Show ∉ evs.
Proof.
  intros Hlen. apply Nat.eqb_neq in Hlen.
  unfold plot_equity_dd, bind, plt_subplots_single, ax_fill_between, plot,
    emit, new_axes, raise, from_option, operand_length.
  cbn -[broadcastable Nat.eqb length].
  destruct (broadcastable _ None); cbn -[Nat.eqb length].
  - rewrite Hlen. do 3 eexists. split; [reflexivity|]. cbn.
    rewrite <- app_assoc. split; [reflexivity|]. split; [done|].
    intros Hin. repeat (apply elem_of_cons in Hin as [Hin | Hin]; [discriminate|]).
    by apply elem_of_nil in Hin.
  - do 3 eexists. split; [reflexivity|]. cbn. split; [reflexivity|].
    split; [done|].
    intros Hin. repeat (apply elem_of_cons in Hin as [Hin | Hin]; [discriminate|]).
    by apply elem_of_nil in Hin.
Qed.

Lemma plot_equity_dd_length_mismatch_witness :
  exists (w' : world nat num) (msg : string) (evs : list (event nat num)),
    plot_equity_dd (lib:=accepting) [1; 2; 3]%nat [Fin 100; Fin 90] "x" "y"
      "title" (Fin 0) false
      {| files := ∅; log := []; axes_count := 0 |}
    = (w', inl (ValueError msg))
    /\ log w' = [] ++ evs
    /\ texts evs = []
    /\ Show ∉ evs.
Proof.
  apply (plot_equity_dd_length_mismatch (lib:=accepting) [1; 2; 3]%nat
           [Fin 100; Fin 90]
           "x" "y" "title" (Fin 0) false
           {| files := ∅; log := []; axes_count := 0 |}).
  simpl. lia.
Defined.

(** X10.  A call of [plot_equity] that returns was given [x] and [y] of one
    length; the chart carries the labels and the title it was given, in
    that order, the line is labelled "Equity", the scale is logarithmic
    exactly when [log] is set, and the last thing done is [plt.show]. *)
Theorem plot_equity_returns {X A : Type} {lib : Layout X A}
    (x : list X) (y : list A)
    (xlabel ylabel title : string) (log_ : bool) (w w' : world X A) :
  plot_equity x y xlabel ylabel title log_ w = (w', inr tt) ->
  length x = length y
  /\ exists evs : list (event X A),
       w' = {| files := files w; log := log w ++ evs;
               axes_count := axes_count w |}
       /\ texts evs = [(Current, xlabel); (Current, ylabel); (Current, title)]
       /\ Plot Current x y
            {| color := None; alpha := None; linewidth := None;
               linestyle := None; label := Some "Equity" |} ∈ evs
       /\ (SetYscale Current "log" ∈ evs <-> log_ = true)
       /\ last evs = Some Show.
Proof.
  intros Hrun.
  destruct (decide (length x = length y)) as [Hlen | Hlen].
  2:{ rewrite (plot_equity_misfit _ _ _ _ _ _ _ Hlen) in Hrun. discriminate. }
  split; [done|]. revert Hrun. unfold plot_equity.
  rewrite (plot_fits _ _ _ _ Hlen).
  unfold plt_figure, plt_xlabel, plt_ylabel, plt_title, set_yscale, grid,
    plt_minorticks_on, legend, plt_show.
  destruct log_; repeat RecorderSpec.script_step;
    rewrite run_bind_tight_layout; RecorderSpec.script_simpl;
    (destruct (layout_error _); [discriminate|]);
    unfold emit; cbn [files log axes_count]; rewrite <- !app_assoc; cbn [app];
    intros [= <-];
    (eexists; split; [reflexivity|]);
    (split; [reflexivity|]);
    (split; [do 1 right; left|]);
    (split; [|reflexivity]).
  - split; [done|]. intros _. do 5 right. left.
  - split; [|done]. intros Hin.
    repeat (apply elem_of_cons in Hin as [Hin | Hin]; [discriminate|]).
    by apply elem_of_nil in Hin.
Qed.

Lemma plot_equity_returns_witness :
  length [1; 2]%nat = length [10; 11]%Z
  /\ exists evs : list (event nat Z),
       {| files := ∅;
          log := [ Figure (12, 6)%nat;
                   Plot Current [1; 2]%nat [10; 11]%Z
                     {| color := None; alpha := None; linewidth := None;
                        linestyle := None; label := Some "Equity" |};
                   SetXlabel Current "trade";
                   SetYlabel Current "USD" no_style;
                   SetTitle Current "equity over time";
                   Grid Current (Some "major")
                     {| color := None; alpha := None;
                        linewidth := Some (75 # 100); linestyle := Some "-";
                        label := None |};
                   Grid Current (Some "minor")
                     {| color := None; alpha := None;
                        linewidth := Some (5 # 10); linestyle := Some "--";
                        label := None |};
                   MinorticksOn;
                   Legend Current None;
                   TightLayout;
                   Show ];
          axes_count := 0 |}
       = {| files := ∅; log := [] ++ evs; axes_count := 0 |}
       /\ texts evs
          = [(Current, "trade"); (Current, "USD");
             (Current, "equity over time")]
       /\ Plot Current [1; 2]%nat [10; 11]%Z
            {| color := None; alpha := None; linewidth := None;
               linestyle := None; label := Some "Equity" |} ∈ evs
       /\ (SetYscale Current "log" ∈ evs <-> false = true)
       /\ last evs = Some Show.
Proof.
  apply (plot_equity_returns (lib:=accepting) [1; 2]%nat [10; 11]%Z "trade"
           "USD" "equity over time" false
           {| files := ∅; log := []; axes_count := 0 |}).
  reflexivity.
Defined.

(** X11.  In a call of [plot_equity_dd] that returns, the primary axis is
    put on a logarithmic scale exactly when [log] is set, and
    [set_ylim] is called, with [y_lim] as the lower limit, exactly when
    [y_lim] is true as a condition: a [y_lim] of zero, the default, sets no
    limit; and a [y_lim] that is true as a condition is finite, the call
    would not have returned otherwise. *)
Theorem plot_equity_dd_options {X A : Type} `{Dtype A} {lib : Layout X A}
    (time : list X)
    (equity : list A) (xlabel ylabel title : string) (y_lim : A) (log_ : bool)
    (w w' : world X A) :
  plot_equity_dd time equity xlabel ylabel title y_lim log_ w = (w', inr tt) ->
  exists evs : list (event X A),
    log w' = log w ++ evs
    /\ (SetYscale (Ax (axes_count w)) "log" ∈ evs <-> log_ = true)
    /\ (SetYlim (axes_count w) y_lim ∈ evs <-> truth y_lim = true)
    /\ (forall (a : nat) (bottom : A),
          SetYlim a bottom ∈ evs -> a = axes_count w /\ bottom = y_lim)
    /\ (truth y_lim = true -> isfinite y_lim = true).
Proof.
  intros Hrun.
  destruct (decide (length time = length equity)) as [Hlen | Hlen].
  2:{ destruct (plot_equity_dd_raises time equity xlabel ylabel title y_lim
                  log_ w Hlen) as (w'' & e & Hraise).
      rewrite Hraise in Hrun. discriminate. }
  rewrite (plot_equity_dd_run _ _ _ _ _ _ _ _ Hlen) in Hrun.
  unfold equity_dd_outcome in Hrun.
  destruct (truth y_lim && negb (isfinite y_lim)) eqn:Hlim; [discriminate|].
  destruct (layout_error _); [discriminate|].
  injection Hrun as <-. eexists. split; [reflexivity|].
  unfold equity_dd_events, equity_dd_limited, equity_dd_drawn.
  destruct log_, (truth y_lim), (isfinite y_lim); try discriminate;
    cbn [app]; (split; [|split; [|split]]); try done;
    try (split; [events_tac | done]);
    try (split; [done | events_tac]);
    try (split; [done|]; intros _; do 11 right; left);
    try (split; [done|]; intros _; do 12 right; left);
    events_tac.
Qed.

Lemma plot_equity_dd_options_witness :
  exists evs : list (event nat num),
    log (plot_equity_dd (lib:=accepting) [1; 2]%nat [Fin 100; Fin 90] "x" "y"
           "title" (Fin 50) true
           {| files := ∅; log := []; axes_count := 0 |}).1
    = [] ++ evs
    /\ (SetYscale (Ax 0) "log" ∈ evs <-> true = true)
    /\ (SetYlim 0 (Fin 50) ∈ evs <-> truth (Fin 50) = true)
    /\ (forall (a : nat) (bottom : num),
          SetYlim a bottom ∈ evs -> a = 0%nat /\ bottom = Fin 50)
    /\ (truth (Fin 50) = true -> isfinite (Fin 50) = true).
Proof.
  apply (plot_equity_dd_options (lib:=accepting) [1; 2]%nat [Fin 100; Fin 90]
           "x" "y" "title" (Fin 50) true
           {| files := ∅; log := []; axes_count := 0 |}).
  vm_compute. reflexivity.
Defined.

End ChartSpec.

(** * Further properties of the recorder script *)

Module RecorderOutcome.
Import Pandas Python Matplotlib PlotRecorder RecorderFacts RecorderSpec ShowFacts.
Local Open Scope script_scope.

(** The result of the script once the startup checks are passed and the
    command line is long enough: the first thing that is missing, in the
    order of the script, decides; with nothing missing, the library's
    verdict on the layout of the figure does. *)
Definition expected_result {lib : Layout cell cell} {pd : DatetimeErrors}
    (conv : cell -> option cell)
    (fs : gmap string DataFrame) (path asset : string) : exn + unit :=
  match fs !! path with
  | None => inl (FileNotFoundError path)
  | Some df =>
      match df !! "timestamp" with
      | None => inl (KeyError "timestamp")
      | Some ts =>
          match mapM conv ts with
          | None => inl (ValueError (datetime_error ts))
          | Some cts =>
              match df !! "equity", df !! "mid_price", df !! "position" with
              | None, _, _ => inl (KeyError "equity")
              | Some _, None, _ => inl (KeyError "mid_price")
              | Some _, Some _, None => inl (KeyError "position")
              | Some eq, Some mid, Some pos =>
                  match layout_error (recorder_drawn path asset cts eq mid pos) with
                  | Some msg => inl (ValueError msg)
                  | None => inr tt
                  end
              end
          end
      end
  end.

(** The data were loaded and converted. *)
Definition loaded (conv : cell -> option cell) (fs : gmap string DataFrame)
    (path : string) : bool :=
  match fs !! path with
  | None => false
  | Some df =>
      match df !! "timestamp" with
      | None => false
      | Some ts => bool_decide (is_Some (mapM conv ts))
      end
  end.

(** X12.  Once the startup checks are passed and a file name and an asset
    are on the command line, the first thing missing decides how the script
    ends: no file ([FileNotFoundError]), no [timestamp] column
    ([KeyError]), a timestamp that does not convert (the [ValueError] of
    pandas), no [equity], no [mid_price], no [position] column
    ([KeyError], in that order); with nothing missing the script returns
    when matplotlib can lay the figure out, and dies of the [ValueError]
    of [tight_layout] when it cannot. *)
Theorem recorder_result {lib : Layout cell cell} {pd : DatetimeErrors}
    (conv : cell -> option cell) (py : interpreter)
    (fs : gmap string DataFrame) (path asset : string) :
  startup_ok py ->
  argv py !! 1%nat = Some path ->
  argv py !! 2%nat = Some asset ->
  (forall df : DataFrame, fs !! path = Some df -> rectangular df) ->
  (run (plot_recorder conv py) fs).2 = expected_result conv fs path asset.
Proof.
  intros Hok Hpath Hasset Hrect.
  rewrite (recorder_run conv py fs path asset) by done.
  unfold recorder_end, expected_result.
  repeat match goal with
    | |- context [match ?x with Some _ => _ | None => _ end] => destruct x
    end; done.
Qed.

Lemma recorder_result_witness :
  (run (plot_recorder (lib:=rejecting) (pd:=terse) us_to_datetime
          (python311 ["plot_recorder.py"; "rec.csv"; "BTC"]))
     (<["rec.csv" := recording]> ∅)).2
  = inl (ValueError "Date ordinal out of range")
  /\ (run (plot_recorder (lib:=accepting) (pd:=terse) us_to_datetime
             (python311 ["plot_recorder.py"; "rec.csv"; "BTC"]))
        (<["rec.csv" := delete "equity" (delete "position" recording)]> ∅)).2
     = inl (KeyError "equity").
Proof.
  split.
  - etrans.
    + apply (recorder_result (lib:=rejecting) (pd:=terse) us_to_datetime
               (python311 ["plot_recorder.py"; "rec.csv"; "BTC"])
               (<["rec.csv" := recording]> ∅) "rec.csv" "BTC").
      * repeat split; reflexivity.
      * reflexivity.
      * reflexivity.
      * apply only_file_rectangular, recording_rectangular.
    + vm_compute. reflexivity.
  - etrans.
    + apply (recorder_result (lib:=accepting) (pd:=terse) us_to_datetime
               (python311 ["plot_recorder.py"; "rec.csv"; "BTC"])
               (<["rec.csv" := delete "equity" (delete "position" recording)]> ∅)
               "rec.csv" "BTC").
      * repeat split; reflexivity.
      * reflexivity.
      * reflexivity.
      * apply only_file_rectangular, rectangular_two_rows.
        do 2 apply map_Forall_delete. unfold recording.
        repeat (apply map_Forall_insert_2; [reflexivity|]).
        apply map_Forall_empty.
    + vm_compute. reflexivity.
Defined.

(** X13.  No chart call is made before the data are loaded and converted:
    when the file is missing, or has no [timestamp] column, or a timestamp
    does not convert, all the script has done is to open the file. *)
Theorem no_figure_before_data {lib : Layout cell cell} {pd : DatetimeErrors}
    (conv : cell -> option cell) (py : interpreter)
    (fs : gmap string DataFrame) (path asset : string) :
  startup_ok py ->
  argv py !! 1%nat = Some path ->
  argv py !! 2%nat = Some asset ->
  (forall df : DataFrame, fs !! path = Some df -> rectangular df) ->
  loaded conv fs path = false ->
  log (run (plot_recorder conv py) fs).1 = [ReadCsv path].
Proof.
  intros Hok Hpath Hasset Hrect.
  rewrite (recorder_run conv py fs path asset) by done.
  unfold recorder_end, loaded.
  destruct (fs !! path) as [df |]; [|done].
  destruct (df !! "timestamp") as [ts |]; [|done].
  destruct (mapM conv ts) as [cts |]; [|done].
  intros Hl. rewrite bool_decide_eq_false in Hl. by destruct Hl.
Qed.

Lemma no_figure_before_data_witness :
  log (run (plot_recorder (lib:=accepting) (pd:=terse) us_to_datetime
              (python311 ["plot_recorder.py"; "rec.csv"; "BTC"]))
         (<["rec.csv" := <["timestamp" := [Int64 1; Object "later"]]> recording]>
            ∅)).1
  = [ReadCsv "rec.csv"].
Proof.
  apply (no_figure_before_data (lib:=accepting) (pd:=terse) us_to_datetime
           (python311 ["plot_recorder.py"; "rec.csv"; "BTC"])
           (<["rec.csv" := <["timestamp" := [Int64 1; Object "later"]]> recording]>
              ∅)
           "rec.csv" "BTC").
  - repeat split; reflexivity.
  - reflexivity.
  - reflexivity.
  - intros df Hdf. apply lookup_insert_Some in Hdf as [[_ <-] | [? _]]; [|done].
    apply rectangular_two_rows. unfold recording.
    repeat (apply map_Forall_insert_2; [reflexivity|]). apply map_Forall_empty.
  - vm_compute. reflexivity.
Defined.

End RecorderOutcome.

Module RecorderStartup.
Import Pandas Python Matplotlib PlotRecorder RecorderFacts RecorderSpec ShowFacts
  ChartSpec.
Local Open Scope script_scope.

Lemma never_import (py : interpreter) (name : string) :
  never_shows (X:=cell) (Y:=cell) (import_ py name).
Proof.
  unfold import_. destruct (importable py name);
    [apply never_ret | apply never_raise].
Qed.

Lemma never_argv_item (py : interpreter) (i : nat) :
  never_shows (X:=cell) (Y:=cell) (argv_item py i).
Proof.
  unfold argv_item. destruct (argv py !! i);
    [apply never_ret | apply never_raise].
Qed.

Lemma never_read_csv (path : string) : never_shows (pd_read_csv path).
Proof.
  intros w. unfold pd_read_csv, bind, emit. cbn.
  destruct (files w !! path); cbn; intros Hin;
    (apply elem_of_app in Hin as [Hin | Hin]; [done|]);
    apply list_elem_of_singleton in Hin; discriminate.
Qed.

Lemma never_getitem (df : DataFrame) (key : string) :
  never_shows (X:=cell) (Y:=cell) (getitem df key).
Proof.
  unfold getitem. destruct (df !! key); [apply never_ret | apply never_raise].
Qed.

Lemma never_to_datetime {pd : DatetimeErrors} (conv : cell -> option cell)
    (column : list cell) :
  never_shows (X:=cell) (Y:=cell) (pd_to_datetime conv column).
Proof.
  unfold pd_to_datetime. destruct (mapM conv column);
    [apply never_ret | apply never_raise].
Qed.

Ltac never_shows_script :=
  repeat first
    [ apply never_read_csv
    | apply never_import | apply never_argv_item
    | apply never_getitem | apply never_to_datetime
    | progress unfold print, sys_exit
    | progress never_shows_tac ].

(** X14.  On every run of the script, whatever the interpreter, the command
    line and the files, the window opens exactly when the script reaches
    its end: a run that is stopped by an exit or an exception has not
    reached [plt.show]. *)
Theorem window_iff_script_ends {lib : Layout cell cell} {pd : DatetimeErrors}
    (conv : cell -> option cell) (py : interpreter)
    (fs : gmap string DataFrame) :
  Show ∈ log (run (plot_recorder conv py) fs).1
  <-> (run (plot_recorder conv py) fs).2 = inr tt.
Proof.
  unfold run.
  assert (Hscript : shows_iff_returns (plot_recorder conv py)).
  { unfold plot_recorder. cbv zeta.
    repeat (apply returns_bind; [by never_shows_script | intros ?]).
    apply returns_show. }
  apply Hscript. cbn. apply not_elem_of_nil.
Qed.

(** The startup checks in their order. *)
Lemma startup_run {lib : Layout cell cell} {pd : DatetimeErrors}
    (conv : cell -> option cell) (py : interpreter)
    (fs : gmap string DataFrame) :
  let start := {| files := fs; log := []; axes_count := 0 |} in
  (version_lt (version_info py) (3, 6)%nat = true ->
   run (plot_recorder conv py) fs = (start, inl SyntaxError))
  /\ (version_lt (version_info py) (3, 6)%nat = false ->
      importable py "pandas" = false ->
      run (plot_recorder conv py) fs = (start, inl (ImportError "pandas")))
  /\ (version_lt (version_info py) (3, 6)%nat = false ->
      importable py "pandas" = true -> importable py "matplotlib" = false ->
      run (plot_recorder conv py) fs = (start, inl (ImportError "matplotlib")))
  /\ (version_lt (version_info py) (3, 6)%nat = false ->
      importable py "pandas" = true -> importable py "matplotlib" = true ->
      version_lt (version_info py) (3, 7)%nat = true ->
      run (plot_recorder conv py) fs
      = ({| files := fs; log := [Print "Python 3.7 or higher is required."];
            axes_count := 0 |}, inl (SystemExit 1))).
Proof.
  destruct py as [v imp args]. cbn [argv importable version_info].
  split; [|split; [|split]].
  - intros Hsyn. open_script. cbn [argv importable version_info].
    rewrite Hsyn. by script_step.
  - intros Hsyn Hpandas. open_script. cbn [argv importable version_info].
    rewrite Hsyn, Hpandas. by repeat script_step.
  - intros Hsyn Hpandas Hmpl. open_script. cbn [argv importable version_info].
    rewrite Hsyn, Hpandas, Hmpl. by repeat script_step.
  - intros Hsyn Hpandas Hmpl Hver. open_script.
    cbn [argv importable version_info].
    rewrite Hsyn, Hpandas, Hmpl, Hver. by repeat script_step.
Qed.

(** X15.  The startup of the script.  An interpreter older than 3.6 does
    not parse the file, which holds f-strings: the run ends in a
    [SyntaxError] before anything is done.  Under an interpreter that
    parses it: without pandas, or with pandas but without matplotlib, the
    import at the top raises [ImportError] and nothing is printed; with
    both, an interpreter older than 3.7, that is 3.6, gets the version
    message and exit status 1.  The command line and the files play no
    part in any of this. *)
Theorem startup_failures {lib : Layout cell cell} {pd : DatetimeErrors}
    (conv : cell -> option cell) (py : interpreter)
    (fs : gmap string DataFrame) :
  (version_lt (version_info py) (3, 6)%nat = true ->
   run (plot_recorder conv py) fs
   = ({| files := fs; log := []; axes_count := 0 |}, inl SyntaxError))
  /\ (version_lt (version_info py) (3, 6)%nat = false ->
      importable py "pandas" = false ->
      run (plot_recorder conv py) fs
      = ({| files := fs; log := []; axes_count := 0 |},
         inl (ImportError "pandas")))
  /\ (version_lt (version_info py) (3, 6)%nat = false ->
      importable py "pandas" = true -> importable py "matplotlib" = false ->
      run (plot_recorder conv py) fs
      = ({| files := fs; log := []; axes_count := 0 |},
         inl (ImportError "matplotlib")))
  /\ (version_lt (version_info py) (3, 6)%nat = false ->
      importable py "pandas" = true -> importable py "matplotlib" = true ->
      version_lt (version_info py) (3, 7)%nat = true ->
      run (plot_recorder conv py) fs
      = ({| files := fs; log := [Print "Python 3.7 or higher is required."];
            axes_count := 0 |}, inl (SystemExit 1))).
Proof. exact (startup_run conv py fs). Qed.

Lemma startup_failures_witness :
  run (plot_recorder (lib:=accepting) (pd:=terse) us_to_datetime
         {| version_info := (3, 5)%nat;
            importable := fun _ => true;
            argv := ["plot_recorder.py"; "rec.csv"; "BTC"] |})
    (<["rec.csv" := recording]> ∅)
  = ({| files := <["rec.csv" := recording]> ∅; log := []; axes_count := 0 |},
     inl SyntaxError)
  /\ run (plot_recorder (lib:=accepting) (pd:=terse) us_to_datetime
            {| version_info := (3, 11)%nat;
               importable := fun name => String.eqb name "matplotlib";
               argv := ["plot_recorder.py"; "rec.csv"; "BTC"] |})
       (<["rec.csv" := recording]> ∅)
     = ({| files := <["rec.csv" := recording]> ∅; log := []; axes_count := 0 |},
        inl (ImportError "pandas"))
  /\ run (plot_recorder (lib:=accepting) (pd:=terse) us_to_datetime
            {| version_info := (3, 11)%nat;
               importable := fun name => String.eqb name "pandas";
               argv := ["plot_recorder.py"; "rec.csv"; "BTC"] |})
       (<["rec.csv" := recording]> ∅)
     = ({| files := <["rec.csv" := recording]> ∅; log := []; axes_count := 0 |},
        inl (ImportError "matplotlib"))
  /\ run (plot_recorder (lib:=accepting) (pd:=terse) us_to_datetime
            (python36 ["plot_recorder.py"; "rec.csv"; "BTC"]))
       (<["rec.csv" := recording]> ∅)
     = ({| files := <["rec.csv" := recording]> ∅;
           log := [Print "Python 3.7 or higher is required."];
           axes_count := 0 |}, inl (SystemExit 1)).
Proof.
  split; [|split; [|split]].
  - apply (startup_failures (lib:=accepting) (pd:=terse) us_to_datetime
             {| version_info := (3, 5)%nat;
                importable := fun _ => true;
                argv := ["plot_recorder.py"; "rec.csv"; "BTC"] |}).
    reflexivity.
  - apply (startup_failures (lib:=accepting) (pd:=terse) us_to_datetime
             {| version_info := (3, 11)%nat;
                importable := fun name => String.eqb name "matplotlib";
                argv := ["plot_recorder.py"; "rec.csv"; "BTC"] |});
      reflexivity.
  - apply (startup_failures (lib:=accepting) (pd:=terse) us_to_datetime
             {| version_info := (3, 11)%nat;
                importable := fun name => String.eqb name "pandas";
                argv := ["plot_recorder.py"; "rec.csv"; "BTC"] |});
      reflexivity.
  - apply (startup_failures (lib:=accepting) (pd:=terse) us_to_datetime
             (python36 ["plot_recorder.py"; "rec.csv"; "BTC"]));
      reflexivity.
Defined.

(** Every line a computation prints satisfies [allowed]. *)
Definition prints_only (allowed : string -> Prop) {R : Type}
    (m : M (X:=cell) (Y:=cell) R) : Prop :=
  forall w : world cell cell,
    (forall line, Print line ∈ log w -> allowed line) ->
    forall line, Print line ∈ log (m w).1 -> allowed line.

Section Prints.
Variable allowed : string -> Prop.

Lemma prints_ret {R : Type} (r : R) : prints_only allowed (ret r).
Proof. by intros w. Qed.

Lemma prints_raise {R : Type} (e : exn) : prints_only allowed (raise (R:=R) e).
Proof. by intros w. Qed.

Lemma prints_new_axes : prints_only allowed new_axes.
Proof. by intros w. Qed.

Lemma prints_emit (ev : event cell cell) :
  (forall line, ev = Print line -> allowed line) ->
  prints_only allowed (emit ev).
Proof.
  intros Hev w Hw line Hin. cbn in Hin.
  apply elem_of_app in Hin as [Hin | Hin]; [by apply Hw|].
  apply list_elem_of_singleton in Hin. by apply Hev.
Qed.

Lemma prints_bind {R T : Type} (m : M R) (k : R -> M T) :
  prints_only allowed m -> (forall r : R, prints_only allowed (k r)) ->
  prints_only allowed (bind m k).
Proof.
  intros Hm Hk w Hw. unfold bind. specialize (Hm w Hw).
  destruct (m w) as [w' [e | r]]; [done|]. by apply Hk.
Qed.

Lemma prints_when (b : bool) (m : M unit) :
  prints_only allowed m -> prints_only allowed (when b m).
Proof. intros Hm. destruct b; [done | apply prints_ret]. Qed.

Lemma prints_plot (on : target) (x y : list cell) (kw : style) :
  prints_only allowed (plot on x y kw).
Proof.
  unfold plot. destruct (Nat.eqb (length x) (length y));
    [by apply prints_emit | apply prints_raise].
Qed.

Lemma prints_argv_item (py : interpreter) (i : nat) :
  prints_only allowed (argv_item py i).
Proof.
  unfold argv_item. destruct (argv py !! i);
    [apply prints_ret | apply prints_raise].
Qed.

Lemma prints_read_csv (path : string) : prints_only allowed (pd_read_csv path).
Proof.
  intros w Hw line. unfold pd_read_csv, bind, emit. cbn.
  destruct (files w !! path); cbn; intros Hin;
    (apply elem_of_app in Hin as [Hin | Hin]; [by apply Hw|]);
    apply list_elem_of_singleton in Hin; discriminate.
Qed.

Lemma prints_getitem (df : DataFrame) (key : string) :
  prints_only allowed (getitem df key).
Proof.
  unfold getitem. destruct (df !! key); [apply prints_ret | apply prints_raise].
Qed.

Lemma prints_tight_layout {lib : Layout cell cell} :
  prints_only allowed plt_tight_layout.
Proof.
  intros w Hw line. unfold plt_tight_layout.
  destruct (layout_error (log w)); [by apply Hw|].
  by apply prints_emit.
Qed.

Lemma prints_to_datetime {pd : DatetimeErrors} (conv : cell -> option cell)
    (column : list cell) :
  prints_only allowed (pd_to_datetime conv column).
Proof.
  unfold pd_to_datetime. destruct (mapM conv column);
    [apply prints_ret | apply prints_raise].
Qed.
End Prints.

Ltac prints_only_tac :=
  repeat first
    [ apply prints_read_csv
    | apply prints_bind; [| intros ?]
    | apply prints_when
    | apply prints_plot
    | apply prints_argv_item
    | apply prints_getitem | apply prints_to_datetime
    | apply prints_tight_layout
    | apply prints_ret
    | apply prints_raise
    | apply prints_new_axes
    | apply prints_emit; intros ? [=]; subst; auto
    | progress unfold print, sys_exit, plt_subplots_column, ax_twinx,
        plt_xlabel, ax_set_ylabel, plt_suptitle, ax_tick_params, legend, grid,
        plt_show ].

(** X16.  The guidance of lines 19 to 22 for installing missing packages is
    never printed: a package that is missing stops the script at its
    import, before the check that would report it.  All the script ever
    prints is the version message or the usage line. *)
Theorem install_guidance_never_printed {lib : Layout cell cell}
    {pd : DatetimeErrors} (conv : cell -> option cell)
    (py : interpreter) (fs : gmap string DataFrame) (line : string) :
  Print line ∈ log (run (plot_recorder conv py) fs).1 ->
  line = "Python 3.7 or higher is required."
  \/ line = "Usage: python plot_recorder.py <csv_filename> <asset_id>".
Proof.
  destruct (startup_run conv py fs) as (Hnosyntax & Hnopandas & Hnompl & _).
  destruct (version_lt (version_info py) (3, 6)%nat) eqn:Hsyn.
  { rewrite (Hnosyntax eq_refl). cbn. intros Hin. by apply elem_of_nil in Hin. }
  destruct (importable py "pandas") eqn:Hpandas.
  2:{ rewrite (Hnopandas eq_refl eq_refl). cbn. intros Hin.
      by apply elem_of_nil in Hin. }
  destruct (importable py "matplotlib") eqn:Hmpl.
  2:{ rewrite (Hnompl eq_refl eq_refl eq_refl). cbn. intros Hin.
      by apply elem_of_nil in Hin. }
  clear Hnosyntax Hnopandas Hnompl. revert line.
  set (allowed := fun line : string =>
         line = "Python 3.7 or higher is required."
         \/ line = "Usage: python plot_recorder.py <csv_filename> <asset_id>").
  assert (Hscript : prints_only allowed (plot_recorder conv py)).
  { unfold plot_recorder, missing_packages, import_. cbv zeta.
    cbn [List.filter]. rewrite Hsyn, Hpandas, Hmpl.
    cbn [negb length Nat.eqb when].
    subst allowed. by prints_only_tac. }
  apply Hscript. cbn. intros line Hin. by apply elem_of_nil in Hin.
Qed.

Lemma install_guidance_never_printed_witness :
  "Usage: python plot_recorder.py <csv_filename> <asset_id>"
  = "Python 3.7 or higher is required."
  \/ "Usage: python plot_recorder.py <csv_filename> <asset_id>"
     = "Usage: python plot_recorder.py <csv_filename> <asset_id>".
Proof.
  apply (install_guidance_never_printed (lib:=accepting) (pd:=terse)
           us_to_datetime (python311 ["plot_recorder.py"]) ∅).
  vm_compute. left.
Defined.

(** X17.  Only the first three words of the command line matter: words
    after the asset are ignored. *)
Theorem extra_arguments_ignored {lib : Layout cell cell} {pd : DatetimeErrors}
    (conv : cell -> option cell) (py : interpreter)
    (fs : gmap string DataFrame) :
  (3 <= length (argv py))%nat ->
  run (plot_recorder conv py) fs
  = run (plot_recorder conv
           {| version_info := version_info py; importable := importable py;
              argv := take 3 (argv py) |}) fs.
Proof.
  intros Hlen. destruct py as [v imp args]. cbn [argv importable version_info] in *.
  assert (H1 : take 3 args !! 1%nat = args !! 1%nat) by (apply lookup_take_lt; lia).
  assert (H2 : take 3 args !! 2%nat = args !! 2%nat) by (apply lookup_take_lt; lia).
  assert (Hl : Nat.ltb (length (take 3 args)) 3 = Nat.ltb (length args) 3).
  { rewrite length_take_le by lia. symmetry. by apply Nat.ltb_ge. }
  unfold run, plot_recorder, argv_item. cbn [argv importable version_info].
  by rewrite H1, H2, Hl.
Qed.

Lemma extra_arguments_ignored_witness :
  run (plot_recorder (lib:=accepting) (pd:=terse) us_to_datetime
         (python311 ["plot_recorder.py"; "rec.csv"; "BTC"; "--verbose"]))
    (<["rec.csv" := recording]> ∅)
  = run (plot_recorder (lib:=accepting) (pd:=terse) us_to_datetime
           {| version_info := (3, 11)%nat; importable := fun _ => true;
              argv := take 3 ["plot_recorder.py"; "rec.csv"; "BTC"; "--verbose"] |})
      (<["rec.csv" := recording]> ∅).
Proof.
  apply (extra_arguments_ignored (lib:=accepting) (pd:=terse) us_to_datetime
           (python311 ["plot_recorder.py"; "rec.csv"; "BTC"; "--verbose"])
           (<["rec.csv" := recording]> ∅)).
  simpl. lia.
Defined.

End RecorderStartup.

Module ObjectsFrame.
Import Numpy Drawdown Objects ObjectsSpec.



End ObjectsFrame.
